(** * A country API: the request-to-query mapping of [app.py]

    A shallow embedding of the handlers of [app.py] (a Flask-RESTX service
    over one SQLAlchemy model, [Country], stored in SQLite) and the proofs
    of the properties its specification states about them.

    What is modelled, and how:
    - the table [country] is the list of its rows, in storage (rowid)
      order; the session's pending changes reach it at [commit] only, as
      one atomic step, so a handler is a function from the table to an
      outcome and the committed table;
    - a Python value that may be [None] is an [option]; column values are
      integers ([Z]) or strings, as the model class declares them;
    - an exception is a constructor of [exn]; the framework turns
      [abort(404)] into status 404 and any other exception into 500;
    - the JSON body of a request is the record of the six keys the handlers
      read, each absent (or null) or of the type [country_model] gives it.

    What is left out: the HTML page of [/countries], the Swagger
    documentation, the answers of the framework to a request that reaches
    no handler or whose body is no JSON object, and the length of strings
    (SQLite does not enforce [String(n)]). *)

From Stdlib Require Import ZArith List String Ascii Bool Lia.
From Stdlib Require Import QArith Sorted Permutation.
Import ListNotations.

Local Open Scope Z_scope.
Local Open Scope string_scope.
Local Open Scope list_scope.

(** ** The model class [Country] (app.py, lines 20-30) *)

Module Schema.

(** The seven [db.Column] attributes of the class. *)
Inductive column : Type :=
| id_
| country_name_
| capital_of_the_country_
| living_standard_
| country_area_
| population_of_the_country_
| phone_code_.

Definition columns : list column :=
  [ id_; country_name_; capital_of_the_country_; living_standard_;
    country_area_; population_of_the_country_; phone_code_ ].

Definition column_name (c : column) : string :=
  match c with
  | id_ => "id"
  | country_name_ => "country_name"
  | capital_of_the_country_ => "capital_of_the_country"
  | living_standard_ => "living_standard"
  | country_area_ => "country_area"
  | population_of_the_country_ => "population_of_the_country"
  | phone_code_ => "phone_code"
  end.

(** [primary_key=True] on [id] (line 21). *)
Definition primary_key (c : column) : bool :=
  match c with
  | id_ => true
  | _ => false
  end.

(** [nullable=False] on the six columns of lines 22-27; a primary key
    column is not nullable either. *)
Definition nullable (c : column) : bool := false.

(** An instance of the class: the attributes are [None] until they are
    given; [id] is [None] until the row is flushed. *)
Record Country : Type := Row {
  id : option Z;
  country_name : option string;
  capital_of_the_country : option string;
  living_standard : option string;
  country_area : option Z;
  population_of_the_country : option Z;
  phone_code : option Z
}.

(** A value as SQLite holds it in a cell. *)
Inductive value : Type :=
| Null
| Int (z : Z)
| Text (s : string).

Definition of_int (o : option Z) : value :=
  match o with Some z => Int z | None => Null end.

Definition of_text (o : option string) : value :=
  match o with Some s => Text s | None => Null end.

(** The cell of row [r] in column [c]. *)
Definition cell (c : column) (r : Country) : value :=
  match c with
  | id_ => of_int (id r)
  | country_name_ => of_text (country_name r)
  | capital_of_the_country_ => of_text (capital_of_the_country r)
  | living_standard_ => of_text (living_standard r)
  | country_area_ => of_int (country_area r)
  | population_of_the_country_ => of_int (population_of_the_country r)
  | phone_code_ => of_int (phone_code r)
  end.

Definition is_null (v : value) : bool :=
  match v with Null => true | _ => false end.

(** What the class itself shows of its attributes in [app.py]: the seven
    columns and the method [__repr__] of line 29.  The attributes the
    class inherits from [db.Model] ([query], [metadata] and others) are
    declared outside [app.py] and are not listed: [getattr_Country] and
    [hasattr_Country] answer for the names of this table, and nothing
    below is stated of a name for the reason that it is absent from it. *)
Inductive attribute : Type :=
| InstrumentedAttribute (c : column)
| Function_repr.

Definition getattr_Country (name : string) : option attribute :=
  if name =? "__repr__" then Some Function_repr
  else option_map InstrumentedAttribute
         (find (fun c => name =? column_name c) columns).

Definition hasattr_Country (name : string) : bool :=
  match getattr_Country name with Some _ => true | None => false end.

End Schema.
Import Schema.

(** ** Exceptions and the request monad *)

(** The exceptions a handler of this file can raise: [abort(404)] of
    [get_or_404], Python's [AttributeError], SQLAlchemy's [ArgumentError]
    (an object that is no SQL expression), [IntegrityError] (a
    constraint of the table refused the write), [OverflowError] (an
    integer handed to SQLite is outside its 64 bits) and
    [OperationalError] (the store has no key left for a new row). *)
Inductive exn : Type :=
| NotFound
| AttributeError
| ArgumentError
| IntegrityError
| OverflowError
| OperationalError.

Inductive outcome (A : Type) : Type :=
| Return (a : A)
| Raise (e : exn).
Arguments Return {A} a.
Arguments Raise {A} e.

(** The committed rows, in rowid order. *)
Definition table : Type := list Country.

(** A computation within one request: it reads the committed table and may
    commit a new one. *)
Definition M (A : Type) : Type := table -> outcome A * table.

Definition ret {A : Type} (a : A) : M A := fun t => (Return a, t).

Definition raise {A : Type} (e : exn) : M A := fun t => (Raise e, t).

Definition bind {A B : Type} (m : M A) (k : A -> M B) : M B :=
  fun t =>
    match m t with
    | (Return a, t') => k a t'
    | (Raise e, t') => (Raise e, t')
    end.

Notation "x <- m ;; k" := (bind m (fun x => k))
  (at level 61, m at next level, right associativity).

(** ** The record store: SQLite behind SQLAlchemy *)

Module Sqlite.

(** The order of [ORDER BY]: NULL sorts first, integers follow in numeric
    order, text comes last, compared byte by byte (a proper prefix first). *)
Definition value_leb (a b : value) : bool :=
  match a, b with
  | Null, _ => true
  | Int _, Null => false
  | Int x, Int y => (x <=? y)%Z
  | Int _, Text _ => true
  | Text _, Null => false
  | Text _, Int _ => false
  | Text s, Text u => String.leb s u
  end.

Inductive direction : Type :=
| ASC
| DESC.

(** An [ORDER BY] clause: a column with its direction. *)
Definition ordering : Type := (direction * column)%type.

(** [precedes o r1 r2]: row [r1] may stand before row [r2] under [o]. *)
Definition precedes (o : ordering) (r1 r2 : Country) : bool :=
  match o with
  | (ASC, c) => value_leb (cell c r1) (cell c r2)
  | (DESC, c) => value_leb (cell c r2) (cell c r1)
  end.

Fixpoint place (o : ordering) (r : Country) (rows : list Country)
  : list Country :=
  match rows with
  | [] => [r]
  | h :: rest => if precedes o r h then r :: h :: rest
                 else h :: place o r rest
  end.

(** The rows in the order of the clause.  SQL leaves the order of rows
    with equal keys open; here they keep their storage order. *)
Definition sorted_rows (o : ordering) (rows : list Country) : list Country :=
  fold_right (place o) [] rows.

(** A [Query] on [Country]: [SELECT * FROM country], with the clause that
    [order_by] gave it, if any. *)
Record Query : Type := Select { order_by_clause : option ordering }.

Definition order_by (q : Query) (o : ordering) : Query :=
  {| order_by_clause := Some o |}.

Definition run (q : Query) (t : table) : list Country :=
  match order_by_clause q with
  | Some o => sorted_rows o t
  | None => t
  end.

(** [Query.all()] *)
Definition all (q : Query) : M (list Country) :=
  fun t => (Return (run q t), t).

(** [Query.first()]: the first row of the result, [None] when it is empty. *)
Definition first (q : Query) : M (option Country) :=
  fun t => (Return (hd_error (run q t)), t).

Definition has_id (i : Z) (r : Country) : bool :=
  match id r with
  | Some j => (i =? j)%Z
  | None => false
  end.

(** The integers SQLite holds: 64 bits, signed.  The driver raises
    [OverflowError] when it is handed any other as a parameter of a
    statement. *)
Definition in_int64 (z : Z) : bool :=
  (- 2 ^ 63 <=? z)%Z && (z <? 2 ^ 63)%Z.

Definition bindable (v : value) : bool :=
  match v with
  | Int z => in_int64 z
  | _ => true
  end.

Definition value_eqb (a b : value) : bool :=
  match a, b with
  | Null, Null => true
  | Int x, Int y => (x =? y)%Z
  | Text s, Text u => (s =? u)%string
  | _, _ => false
  end.

(** [Query.get(id)]: the row of that primary key; the id is a parameter
    of the [SELECT]. *)
Definition get (i : Z) : M (option Country) :=
  fun t =>
    if in_int64 i then (Return (find (has_id i) t), t)
    else (Raise OverflowError, t).

(** [Query.get_or_404(id)] *)
Definition get_or_404 (i : Z) : M Country :=
  found <- get i ;;
  match found with
  | Some r => ret r
  | None => raise NotFound
  end.

Definition rowids (t : table) : list Z :=
  flat_map (fun r => match id r with Some i => [i] | None => [] end) t.

(** The rowid SQLite gives a new row of an [INTEGER PRIMARY KEY] column of
    a table made without AUTOINCREMENT: 1 in an empty table, else one more
    than the largest in use. *)
Definition sqlite_rowid (t : table) : Z :=
  match rowids t with
  | [] => 1
  | i :: rest => fold_right Z.max i rest + 1
  end.

(** The NOT NULL constraint on an [INSERT]: every column that is not
    nullable holds a value.  The primary key is exempt: a row that comes
    without it receives its rowid from the store. *)
Definition insert_allowed (r : Country) : bool :=
  forallb (fun c => primary_key c || nullable c || negb (is_null (cell c r)))
          columns.

(** The NOT NULL constraint on an [UPDATE]: the unit of work writes the
    attributes whose value changed, and SQLite checks the columns that are
    written; a cell that was NULL and stays NULL is not written. *)
Definition update_allowed (old new : Country) : bool :=
  forallb (fun c => primary_key c || nullable c
                    || negb (is_null (cell c new))
                    || is_null (cell c old)) columns.

(** The parameters of an [INSERT] are the cells of the row: each must be
    one the driver can bind. *)
Definition insert_bindable (r : Country) : bool :=
  forallb (fun c => bindable (cell c r)) columns.

(** The parameters of an [UPDATE] are the cells that changed. *)
Definition update_bindable (old new : Country) : bool :=
  forallb (fun c => value_eqb (cell c new) (cell c old)
                    || bindable (cell c new)) columns.

(** [db.session.add(r); db.session.commit()] for a new object [r]: the
    [INSERT] of the row; the result is the object after the commit, its
    [id] set.  The table is created outside [app.py], so how the store
    picks the primary key of a new row is the variable [next_rowid]
    ([sqlite_rowid] is the one of SQLite's default); a key outside the 64
    bits cannot be given, and the insert then fails. *)
Section Insert.

Variable next_rowid : table -> Z.

Definition add_commit (r : Country) : M Country :=
  fun t =>
    if negb (insert_bindable r) then (Raise OverflowError, t)
    else if negb (insert_allowed r) then (Raise IntegrityError, t)
    else if negb (in_int64 (next_rowid t)) then (Raise OperationalError, t)
    else
      let r' := {| id := Some (next_rowid t);
                   country_name := country_name r;
                   capital_of_the_country := capital_of_the_country r;
                   living_standard := living_standard r;
                   country_area := country_area r;
                   population_of_the_country := population_of_the_country r;
                   phone_code := phone_code r |} in
      (Return r', t ++ [r']).

End Insert.

(** [db.session.commit()] after the attributes of the persistent object
    [old] were assigned, giving [new]: the [UPDATE] of the row of that
    primary key. *)
Definition commit_modified (old new : Country) : M Country :=
  fun t =>
    if negb (update_bindable old new) then (Raise OverflowError, t)
    else if negb (update_allowed old new) then (Raise IntegrityError, t)
    else
      (Return new,
       map (fun r => match id old with
                     | Some i => if has_id i r then new else r
                     | None => r
                     end) t).

(** [db.session.delete(r); db.session.commit()]: the [DELETE] of the row
    of that primary key. *)
Definition delete_commit (r : Country) : M unit :=
  fun t =>
    (Return tt,
     match id r with
     | Some i => filter (fun x => negb (has_id i x)) t
     | None => t
     end).

(** [func.avg]: the mean of the cells that are not NULL, NULL when there
    is none.  The quotient is kept exact; SQLite rounds it to a double.
    How SQLite reads a text cell as a number is not in [app.py]: it is the
    variable [text_as_real]. *)
Section Average.

Variable text_as_real : string -> Q.

Definition numeric (v : value) : Q :=
  match v with
  | Null => 0%Q
  | Int z => inject_Z z
  | Text s => text_as_real s
  end.

Definition avg (cells : list value) : option Q :=
  match filter (fun v => negb (is_null v)) cells with
  | [] => None
  | v :: vs =>
      Some (fold_right Qplus 0%Q (map numeric (v :: vs))
            / inject_Z (Z.of_nat (List.length (v :: vs))))%Q
  end.

(** [db.session.query(func.avg(column)).scalar()] *)
Definition query_avg_scalar (c : column) : M (option Q) :=
  fun t => (Return (avg (map (cell c) t)), t).

End Average.

End Sqlite.

(** ** The Flask-RESTX layer *)

(** The JSON object that marshalling with [country_model] (lines 33-44)
    yields: its seven keys, [null] for an attribute that is [None]. *)
Record country_model : Type := Marshalled {
  m_id : option Z;
  m_country_name : option string;
  m_capital_of_the_country : option string;
  m_living_standard : option string;
  m_country_area : option Z;
  m_population_of_the_country : option Z;
  m_phone_code : option Z
}.

(** [marshal(data, country_model)]: each key is read from [data] with
    [getattr(data, key, None)], so [None] itself marshals to seven nulls. *)
Definition marshal (data : option Country) : country_model :=
  match data with
  | Some r =>
      {| m_id := id r;
         m_country_name := country_name r;
         m_capital_of_the_country := capital_of_the_country r;
         m_living_standard := living_standard r;
         m_country_area := country_area r;
         m_population_of_the_country := population_of_the_country r;
         m_phone_code := phone_code r |}
  | None =>
      {| m_id := None;
         m_country_name := None;
         m_capital_of_the_country := None;
         m_living_standard := None;
         m_country_area := None;
         m_population_of_the_country := None;
         m_phone_code := None |}
  end.

(** The cell of a marshalled object, as [Schema.cell] of a row. *)
Definition m_cell (c : column) (o : country_model) : value :=
  match c with
  | id_ => of_int (m_id o)
  | country_name_ => of_text (m_country_name o)
  | capital_of_the_country_ => of_text (m_capital_of_the_country o)
  | living_standard_ => of_text (m_living_standard o)
  | country_area_ => of_int (m_country_area o)
  | population_of_the_country_ => of_int (m_population_of_the_country o)
  | phone_code_ => of_int (m_phone_code o)
  end.

(** The body of a response. *)
Inductive json : Type :=
| Objects (l : list country_model)
| Object (o : country_model)
| Envelope (key : string) (o : country_model)
| Average (field : string) (average_value : option Q)
| Message.

Record response : Type := Response {
  status : Z;
  payload : json
}.

(** What a handler returns: the data alone, or the tuple of the data and
    a status code. *)
Inductive returned (A : Type) : Type :=
| Value (data : A)
| Tuple (data : A) (code : Z).
Arguments Value {A} data.
Arguments Tuple {A} data code.

(** [unpack]: a value without a code goes out with 200. *)
Definition unpack {A : Type} (r : returned A) : A * Z :=
  match r with
  | Value d => (d, 200)
  | Tuple d code => (d, code)
  end.

Definition map_returned {A B : Type} (f : A -> B) (r : returned A)
  : returned B :=
  match r with
  | Value d => Value (f d)
  | Tuple d code => Tuple (f d) code
  end.

(** [@api.marshal_with(country_model, envelope=...)].  Its [code=]
    argument goes to the documentation of the API only: the status sent is
    the one the handler returns. *)
Definition marshal_with (envelope : option string)
  (h : M (returned (option Country))) : M (returned json) :=
  resp <- h ;;
  ret (map_returned
         (fun data => match envelope with
                      | Some key => Envelope key (marshal data)
                      | None => Object (marshal data)
                      end) resp).

(** [@api.marshal_list_with(country_model)] *)
Definition marshal_list_with (h : M (returned (list Country)))
  : M (returned json) :=
  resp <- h ;;
  ret (map_returned
         (fun rows => Objects (map (fun r => marshal (Some r)) rows)) resp).

(** The framework around a handler: the returned value goes out with its
    code, [abort(404)] as 404, any other exception as 500. *)
Definition dispatch (h : M (returned json)) (t : table) : response * table :=
  match h t with
  | (Return r, t') =>
      let (d, code) := unpack r in ({| status := code; payload := d |}, t')
  | (Raise NotFound, t') => ({| status := 404; payload := Message |}, t')
  | (Raise _, t') => ({| status := 500; payload := Message |}, t')
  end.

(** [request.get_json()]: the JSON object of the body, by the six keys the
    handlers read.  [data.get(key)] is [None] for a key that is absent or
    null. *)
Record json_body : Type := Body {
  get_country_name : option string;
  get_capital_of_the_country : option string;
  get_living_standard : option string;
  get_country_area : option Z;
  get_population_of_the_country : option Z;
  get_phone_code : option Z
}.

(** ** The handlers of [app.py] *)

Import Sqlite.

Section Handlers.

(** The two parts of the store that [app.py] does not fix: the primary
    key of a new row, and the number SQLite reads in a text cell. *)
Variable next_rowid : table -> Z.
Variable text_as_real : string -> Q.

(** [Country.query] *)
Definition Country_query : Query := {| order_by_clause := None |}.

(** [getattr(Country, name)] *)
Definition getattr (name : string) : M attribute :=
  match getattr_Country name with
  | Some a => ret a
  | None => raise AttributeError
  end.

(** [sqlalchemy.asc] and [sqlalchemy.desc]: an object that is no column
    expression is refused with [ArgumentError]. *)
Definition asc (a : attribute) : M ordering :=
  match a with
  | InstrumentedAttribute c => ret (ASC, c)
  | Function_repr => raise ArgumentError
  end.

Definition desc (a : attribute) : M ordering :=
  match a with
  | InstrumentedAttribute c => ret (DESC, c)
  | Function_repr => raise ArgumentError
  end.

(** The methods [.asc()] and [.desc()] of a column attribute; a function
    has neither. *)
Definition method_asc (a : attribute) : M ordering :=
  match a with
  | InstrumentedAttribute c => ret (ASC, c)
  | Function_repr => raise AttributeError
  end.

Definition method_desc (a : attribute) : M ordering :=
  match a with
  | InstrumentedAttribute c => ret (DESC, c)
  | Function_repr => raise AttributeError
  end.

(** [func.avg(a)]: the aggregate over a column. *)
Definition func_avg (a : attribute) : M column :=
  match a with
  | InstrumentedAttribute c => ret c
  | Function_repr => raise ArgumentError
  end.

(** [sort_dirs = {"desc": desc, "asc": asc}] (line 57) *)
Definition sort_dirs (key : string) : option (attribute -> M ordering) :=
  if key =? "desc" then Some desc
  else if key =? "asc" then Some asc
  else None.

(** [Countries.get] (lines 50-66); [sort] and [order] are the query
    parameters of the request, [None] when absent. *)
Definition Countries_get_body (sort order : option string)
  : M (returned (list Country)) :=
  let sort_by := sort in
  let sort_order := match order with Some o => o | None => "asc" end in
  let sort_dir_func :=
    match sort_dirs sort_order with
    | Some f => f
    | None => asc
    end in
  let countries := Country_query in
  countries <-
    match sort_by with
    | Some name =>
        if hasattr_Country name then
          a <- getattr name ;;
          o <- sort_dir_func a ;;
          ret (order_by countries o)
        else ret countries
    | None => ret countries
    end ;;
  rows <- all countries ;;
  ret (Value rows).

Definition Countries_get (sort order : option string)
  : table -> response * table :=
  dispatch (marshal_list_with (Countries_get_body sort order)).

(** [Countries.post] (lines 68-89) *)
Definition Countries_post_body (data : json_body)
  : M (returned (option Country)) :=
  let country_name := get_country_name data in
  let capital_of_the_country := get_capital_of_the_country data in
  let living_standard := get_living_standard data in
  let country_area := get_country_area data in
  let population_of_the_country := get_population_of_the_country data in
  let phone_code := get_phone_code data in
  let new_country :=
    {| id := None;
       country_name := country_name;
       capital_of_the_country := capital_of_the_country;
       living_standard := living_standard;
       country_area := country_area;
       population_of_the_country := population_of_the_country;
       phone_code := phone_code |} in
  new_country <- add_commit next_rowid new_country ;;
  ret (Value (Some new_country)).

Definition Countries_post (data : json_body) : table -> response * table :=
  dispatch (marshal_with (Some "country") (Countries_post_body data)).

(** [CountryWithMaxValue.get] (lines 94-99) *)
Definition CountryWithMaxValue_get_body (field : string)
  : M (returned (option Country)) :=
  field_attribute <- getattr field ;;
  o <- method_desc field_attribute ;;
  country <- first (order_by Country_query o) ;;
  ret (Value country).

Definition CountryWithMaxValue_get (field : string)
  : table -> response * table :=
  dispatch (marshal_with None (CountryWithMaxValue_get_body field)).

(** [CountryWithMinValue.get] (lines 104-109) *)
Definition CountryWithMinValue_get_body (field : string)
  : M (returned (option Country)) :=
  field_attribute <- getattr field ;;
  o <- method_asc field_attribute ;;
  country <- first (order_by Country_query o) ;;
  ret (Value country).

Definition CountryWithMinValue_get (field : string)
  : table -> response * table :=
  dispatch (marshal_with None (CountryWithMinValue_get_body field)).

(** [CountryAverageValue.get] (lines 112-121): the handler returns a
    dictionary, which goes out as it is. *)
Definition CountryAverageValue_get_body (field : string)
  : M (returned json) :=
  field_attribute <- getattr field ;;
  c <- func_avg field_attribute ;;
  average_value <- query_avg_scalar text_as_real c ;;
  let result := Average field average_value in
  ret (Value result).

Definition CountryAverageValue_get (field : string)
  : table -> response * table :=
  dispatch (CountryAverageValue_get_body field).

(** [CountryResource.get] (lines 127-132) *)
Definition CountryResource_get_body (i : Z) : M (returned (option Country)) :=
  country <- get_or_404 i ;;
  ret (Tuple (Some country) 200).

Definition CountryResource_get (i : Z) : table -> response * table :=
  dispatch (marshal_with (Some "country") (CountryResource_get_body i)).

(** [CountryResource.put] (lines 134-150) *)
Definition CountryResource_put_body (i : Z) (data : json_body)
  : M (returned (option Country)) :=
  country_to_update <- get_or_404 i ;;
  let assigned :=
    {| id := id country_to_update;
       country_name := get_country_name data;
       capital_of_the_country := get_capital_of_the_country data;
       living_standard := get_living_standard data;
       country_area := get_country_area data;
       population_of_the_country := get_population_of_the_country data;
       phone_code := get_phone_code data |} in
  country_to_update <- commit_modified country_to_update assigned ;;
  ret (Tuple (Some country_to_update) 200).

Definition CountryResource_put (i : Z) (data : json_body)
  : table -> response * table :=
  dispatch (marshal_with (Some "country") (CountryResource_put_body i data)).

(** [CountryResource.delete] (lines 152-161) *)
Definition CountryResource_delete_body (i : Z)
  : M (returned (option Country)) :=
  country_to_delete <- get_or_404 i ;;
  _ <- delete_commit country_to_delete ;;
  ret (Tuple (Some country_to_delete) 200).

Definition CountryResource_delete (i : Z) : table -> response * table :=
  dispatch
    (marshal_with (Some "country_deleted") (CountryResource_delete_body i)).

(** The requests of the API, and the service as a step on the table. *)
Inductive request : Type :=
| List_ (sort order : option string)
| Create (data : json_body)
| Max (field : string)
| Min (field : string)
| Avg (field : string)
| Get (i : Z)
| Update (i : Z) (data : json_body)
| Delete (i : Z).

Definition handle (rq : request)
  : table -> response * table :=
  match rq with
  | List_ sort order => Countries_get sort order
  | Create data => Countries_post data
  | Max field => CountryWithMaxValue_get field
  | Min field => CountryWithMinValue_get field
  | Avg field => CountryAverageValue_get field
  | Get i => CountryResource_get i
  | Update i data => CountryResource_put i data
  | Delete i => CountryResource_delete i
  end.

(** The table after a sequence of requests. *)
Definition serve (rqs : list request) (t : table) : table :=
  fold_left (fun t rq => snd (handle rq t)) rqs t.

End Handlers.

(** ** Vocabulary of the properties *)

(** Rows in the order of a clause: each row may stand before all that
    follow it. *)
Definition in_order (o : ordering) : list Country -> Prop :=
  StronglySorted (fun r1 r2 => precedes o r1 r2 = true).

(** The direction a value of the parameter [order] selects. *)
Definition selected (order : option string) : direction :=
  match order with
  | Some o => if o =? "desc" then DESC else ASC
  | None => ASC
  end.

(** A listing that does not decrease (does not increase) in a column. *)
Definition non_decreasing (c : column) : list country_model -> Prop :=
  StronglySorted (fun a b => value_leb (m_cell c a) (m_cell c b) = true).

Definition non_increasing (c : column) : list country_model -> Prop :=
  StronglySorted (fun a b => value_leb (m_cell c b) (m_cell c a) = true).

(** The row of primary key [i] that holds the fields of a body. *)
Definition row_of (i : option Z) (data : json_body) : Country :=
  {| id := i;
     country_name := get_country_name data;
     capital_of_the_country := get_capital_of_the_country data;
     living_standard := get_living_standard data;
     country_area := get_country_area data;
     population_of_the_country := get_population_of_the_country data;
     phone_code := get_phone_code data |}.

(** The requests that add no row. *)
Definition creates_nothing (rq : request) : bool :=
  match rq with
  | Create _ => false
  | _ => true
  end.

(** [issues i rq t]: on table [t] the request [rq] is a Create that
    answers with a country of id [i]. *)
Definition issues (next_rowid : table -> Z) (i : Z) (rq : request)
  (t : table) : bool :=
  match rq with
  | Create data =>
      match payload (fst (Countries_post next_rowid data t)) with
      | Envelope _ o =>
          match m_id o with
          | Some j => (i =? j)%Z
          | None => false
          end
      | _ => false
      end
  | _ => false
  end.

(** [never_issued i rqs t]: served from table [t] on, no request of
    [rqs] creates a country of id [i]. *)
Fixpoint never_issued (next_rowid : table -> Z) (text_as_real : string -> Q)
  (i : Z) (rqs : list request) (t : table) : bool :=
  match rqs with
  | [] => true
  | rq :: rest =>
      negb (issues next_rowid i rq t)
      && never_issued next_rowid text_as_real i rest
           (snd (handle next_rowid text_as_real rq t))
  end.

Definition present {A : Type} (o : option A) : bool :=
  match o with Some _ => true | None => false end.

(** The body lacks one of the six fields (or has it null). *)
Definition omits (data : json_body) : bool :=
  negb (present (get_country_name data)
        && present (get_capital_of_the_country data)
        && present (get_living_standard data)
        && present (get_country_area data)
        && present (get_population_of_the_country data)
        && present (get_phone_code data)).

(** Sample data: the body of the specification's scenario, a body with
    one field, and a table of two rows. *)
Definition wakanda : json_body :=
  {| get_country_name := Some "Wakanda";
     get_capital_of_the_country := Some "Birnin";
     get_living_standard := Some "High";
     get_country_area := Some 100000;
     get_population_of_the_country := Some 6000000;
     get_phone_code := Some 999 |}.

Definition only_name : json_body :=
  {| get_country_name := Some "Wakanda";
     get_capital_of_the_country := None;
     get_living_standard := None;
     get_country_area := None;
     get_population_of_the_country := None;
     get_phone_code := None |}.

Definition two_rows : table :=
  [ {| id := Some 1; country_name := Some "Wakanda";
       capital_of_the_country := Some "Birnin";
       living_standard := Some "High"; country_area := Some 100000;
       population_of_the_country := Some 6000000; phone_code := Some 999 |};
    {| id := Some 2; country_name := Some "Genovia";
       capital_of_the_country := Some "Pyrus";
       living_standard := Some "High"; country_area := Some 300;
       population_of_the_country := Some 500000; phone_code := Some 998 |} ].

(** The integers of the body are within SQLite's 64 bits. *)
Definition fits (data : json_body) : bool :=
  bindable (of_int (get_country_area data))
  && bindable (of_int (get_population_of_the_country data))
  && bindable (of_int (get_phone_code data)).

(** The store takes the [INSERT] of a row: its parameters can be bound,
    it obeys NOT NULL, and there is a key for it. *)
Definition insert_taken (next_rowid : table -> Z) (r : Country) (t : table)
  : bool :=
  insert_bindable r && insert_allowed r && in_int64 (next_rowid t).

(** The store takes the [UPDATE] of a row. *)
Definition update_taken (old new : Country) : bool :=
  update_bindable old new && update_allowed old new.

(** Every row has a primary key, and no two rows share one. *)
Definition unique_keys (t : table) : Prop :=
  Forall (fun r => id r <> None) t /\ NoDup (rowids t).

(** * Properties *)

(** ** The order of cells is a total preorder *)

Lemma ascii_compare_N (a b : ascii) :
  Ascii.compare a b = (N_of_ascii a ?= N_of_ascii b)%N.
Proof. reflexivity. Qed.

Lemma string_leb_trans (s u w : string) :
  String.leb s u = true -> String.leb u w = true -> String.leb s w = true.
Proof.
  unfold String.leb.
  revert u w.
  induction s as [|a s IH]; intros [|b u] [|c w]; simpl; try easy.
  specialize (IH u w).
  destruct (Ascii.compare a b) eqn:Hab; try easy;
    destruct (Ascii.compare b c) eqn:Hbc; try easy.
  - apply Ascii.compare_eq_iff in Hab, Hbc. subst.
    rewrite (proj2 (N.compare_eq_iff _ _) eq_refl : Ascii.compare c c = Eq).
    exact IH.
  - apply Ascii.compare_eq_iff in Hab. subst. now rewrite Hbc.
  - apply Ascii.compare_eq_iff in Hbc. subst. now rewrite Hab.
  - rewrite ascii_compare_N in *.
    rewrite N.compare_lt_iff in Hab, Hbc.
    now rewrite (proj2 (N.compare_lt_iff _ _) (N.lt_trans _ _ _ Hab Hbc)).
Qed.

Lemma value_leb_total (a b : value) :
  value_leb a b = true \/ value_leb b a = true.
Proof.
  destruct a as [|x|s], b as [|y|u]; simpl; auto.
  - destruct (Z.leb_spec x y); [now left | right; apply Z.leb_le; lia].
  - apply String.leb_total.
Qed.

Lemma value_leb_trans (a b c : value) :
  value_leb a b = true -> value_leb b c = true -> value_leb a c = true.
Proof.
  destruct a as [|x|s], b as [|y|u], c as [|z|w]; simpl; try easy.
  - rewrite !Z.leb_le. lia.
  - apply string_leb_trans.
Qed.

Lemma value_leb_refl (a : value) : value_leb a a = true.
Proof. destruct (value_leb_total a a); assumption. Qed.

Lemma precedes_total (o : ordering) (r1 r2 : Country) :
  precedes o r1 r2 = true \/ precedes o r2 r1 = true.
Proof. destruct o as [[|] c]; simpl; apply value_leb_total. Qed.

Lemma precedes_trans (o : ordering) (r1 r2 r3 : Country) :
  precedes o r1 r2 = true -> precedes o r2 r3 = true ->
  precedes o r1 r3 = true.
Proof.
  destruct o as [[|] c]; simpl; intros H12 H23;
    eauto using value_leb_trans.
Qed.

(** ** [ORDER BY] yields the same rows, in order *)

Lemma place_perm (o : ordering) (r : Country) (rows : list Country) :
  Permutation (place o r rows) (r :: rows).
Proof.
  induction rows as [|h rest IH]; simpl.
  - apply Permutation_refl.
  - destruct (precedes o r h).
    + apply Permutation_refl.
    + eapply perm_trans; [apply perm_skip, IH | apply perm_swap].
Qed.

Lemma sorted_rows_perm (o : ordering) (rows : list Country) :
  Permutation (sorted_rows o rows) rows.
Proof.
  induction rows as [|r rows IH]; simpl.
  - constructor.
  - eapply perm_trans; [apply place_perm | now apply perm_skip].
Qed.

Lemma place_in_order (o : ordering) (r : Country) (rows : list Country) :
  in_order o rows -> in_order o (place o r rows).
Proof.
  unfold in_order.
  induction rows as [|h rest IH]; simpl; intros Hs.
  - repeat constructor.
  - inversion Hs as [|? ? Hrest Hall]; subst.
    destruct (precedes o r h) eqn:Hrh.
    + constructor; [assumption|].
      constructor; [assumption|].
      eapply Forall_impl; [|exact Hall].
      intros x Hx. eapply precedes_trans; eassumption.
    + constructor; [now apply IH|].
      assert (Hhr : precedes o h r = true).
      { destruct (precedes_total o r h); congruence. }
      apply Forall_forall. intros x Hx.
      apply (Permutation_in _ (place_perm o r rest)) in Hx.
      destruct Hx as [<-|Hx]; [assumption|].
      rewrite Forall_forall in Hall. now apply Hall.
Qed.

Lemma sorted_rows_in_order (o : ordering) (rows : list Country) :
  in_order o (sorted_rows o rows).
Proof.
  induction rows as [|r rows IH]; simpl.
  - constructor.
  - now apply place_in_order.
Qed.

(** The first row of an ordered result comes before every row. *)
Lemma first_of_sorted_rows (o : ordering) (rows : list Country) (r : Country) :
  hd_error (sorted_rows o rows) = Some r ->
  In r rows /\ forall x, In x rows -> precedes o r x = true.
Proof.
  intros Hhd.
  pose proof (sorted_rows_perm o rows) as Hp.
  pose proof (sorted_rows_in_order o rows) as Hs.
  destruct (sorted_rows o rows) as [|h rest]; [discriminate|].
  injection Hhd as ->.
  split.
  - apply (Permutation_in _ Hp). now left.
  - intros x Hx.
    apply (Permutation_in _ (Permutation_sym Hp)) in Hx.
    inversion Hs as [|? ? _ Hall]; subst.
    destruct Hx as [<-|Hx].
    + destruct (precedes_total o r r); assumption.
    + rewrite Forall_forall in Hall. now apply Hall.
Qed.

Lemma sorted_rows_nonempty (o : ordering) (rows : list Country) :
  rows <> [] -> exists r, hd_error (sorted_rows o rows) = Some r.
Proof.
  intros Hne.
  pose proof (sorted_rows_perm o rows) as Hp.
  destruct (sorted_rows o rows) as [|h rest].
  - apply Permutation_nil in Hp. contradiction.
  - now exists h.
Qed.

(** ** Names of columns *)

Lemma getattr_column (c : column) :
  getattr_Country (column_name c) = Some (InstrumentedAttribute c).
Proof. destruct c; reflexivity. Qed.

Lemma hasattr_column (c : column) : hasattr_Country (column_name c) = true.
Proof. unfold hasattr_Country. now rewrite getattr_column. Qed.

(** ** What the read handlers answer on a column *)

Lemma m_cell_marshal (c : column) (r : Country) :
  m_cell c (marshal (Some r)) = cell c r.
Proof. destruct c; reflexivity. Qed.

Lemma CountryWithMaxValue_get_column (c : column) (t : table) :
  CountryWithMaxValue_get (column_name c) t =
  ({| status := 200;
      payload := Object (marshal (hd_error (sorted_rows (DESC, c) t))) |}, t).
Proof.
  unfold CountryWithMaxValue_get, CountryWithMaxValue_get_body,
    dispatch, marshal_with, bind, getattr.
  rewrite getattr_column. reflexivity.
Qed.

Lemma CountryWithMinValue_get_column (c : column) (t : table) :
  CountryWithMinValue_get (column_name c) t =
  ({| status := 200;
      payload := Object (marshal (hd_error (sorted_rows (ASC, c) t))) |}, t).
Proof.
  unfold CountryWithMinValue_get, CountryWithMinValue_get_body,
    dispatch, marshal_with, bind, getattr.
  rewrite getattr_column. reflexivity.
Qed.

Lemma Countries_get_column (c : column) (order : option string) (t : table) :
  Countries_get (Some (column_name c)) order t =
  ({| status := 200;
      payload := Objects (map (fun r => marshal (Some r))
                              (sorted_rows (selected order, c) t)) |}, t).
Proof.
  unfold Countries_get, Countries_get_body, dispatch, marshal_list_with,
    bind, getattr, sort_dirs, selected.
  rewrite hasattr_column, getattr_column.
  destruct order as [o|]; [|reflexivity].
  destruct (o =? "desc"); [reflexivity|].
  destruct (o =? "asc"); reflexivity.
Qed.

Lemma Countries_get_unsorted (order : option string) (t : table) :
  Countries_get None order t =
  ({| status := 200;
      payload := Objects (map (fun r => marshal (Some r)) t) |}, t).
Proof. reflexivity. Qed.

(** ** The aggregate endpoints *)

(** C1 (as the code has it).  The three aggregate handlers look the path
    field up with [getattr] and no check before it: for the name
    [capital], which is no attribute of [Country], the lookup raises
    [AttributeError] and the answer is status 500, not 400. *)
Theorem unknown_field_answers_500 (text_as_real : string -> Q) (t : table) :
  CountryWithMaxValue_get "capital" t
    = ({| status := 500; payload := Message |}, t) /\
  CountryWithMinValue_get "capital" t
    = ({| status := 500; payload := Message |}, t) /\
  CountryAverageValue_get text_as_real "capital" t
    = ({| status := 500; payload := Message |}, t).
Proof. repeat split. Qed.

(** C2 (as the code has it).  [Countries.get] guards the lookup of the sort
    key with [hasattr], which holds of every attribute of the class, not
    of its columns only: for [sort=__repr__] the guard passes, the method
    is handed to [asc] or [desc], which refuses it, and the answer is
    status 500 whatever [order] is. *)
Theorem sort_by_method_answers_500 (order : option string) (t : table) :
  Countries_get (Some "__repr__") order t
  = ({| status := 500; payload := Message |}, t).
Proof.
  unfold Countries_get, Countries_get_body, dispatch, marshal_list_with,
    bind, sort_dirs.
  destruct order as [o|]; [|reflexivity].
  simpl. destruct (o =? "desc"); [reflexivity|].
  destruct (o =? "asc"); reflexivity.
Qed.

(** C4 (as the code has it).  On an empty table [first()] is [None], which
    [marshal_with] turns into an object of seven nulls: Max and Min answer
    status 200 with that object, for every column. *)
Theorem extremum_of_empty_table_answers_200 (c : column) :
  CountryWithMaxValue_get (column_name c) []
    = ({| status := 200; payload := Object (marshal None) |}, []) /\
  CountryWithMinValue_get (column_name c) []
    = ({| status := 200; payload := Object (marshal None) |}, []).
Proof.
  rewrite CountryWithMaxValue_get_column, CountryWithMinValue_get_column.
  split; reflexivity.
Qed.

(** C5.  Average over a column of a table without rows answers status 200
    with [average_value] null. *)
Theorem average_of_empty_table_is_null (text_as_real : string -> Q)
  (c : column) :
  CountryAverageValue_get text_as_real (column_name c) []
  = ({| status := 200; payload := Average (column_name c) None |}, []).
Proof.
  unfold CountryAverageValue_get, CountryAverageValue_get_body,
    dispatch, bind, getattr.
  rewrite getattr_column. reflexivity.
Qed.



(** ** Sorted listing *)

Lemma marshal_in_order_asc (c : column) (rows : list Country) :
  in_order (ASC, c) rows ->
  non_decreasing c (map (fun r => marshal (Some r)) rows).
Proof.
  unfold in_order, non_decreasing.
  induction 1 as [|r rows Hs IH Hall]; simpl; constructor.
  - exact IH.
  - apply Forall_map. eapply Forall_impl; [|exact Hall].
    intros x Hx. destruct c; exact Hx.
Qed.

Lemma marshal_in_order_desc (c : column) (rows : list Country) :
  in_order (DESC, c) rows ->
  non_increasing c (map (fun r => marshal (Some r)) rows).
Proof.
  unfold in_order, non_increasing.
  induction 1 as [|r rows Hs IH Hall]; simpl; constructor.
  - exact IH.
  - apply Forall_map. eapply Forall_impl; [|exact Hall].
    intros x Hx. destruct c; exact Hx.
Qed.

(** C7.  A List request sorted on a column answers status 200 with the
    rows of the table: non-increasing in that column when [order] is
    [desc], non-decreasing when [order] is [asc], anything else, or
    absent. *)
Theorem sorted_listing_is_ordered (c : column) (order : option string)
  (t : table) :
  exists l,
    Countries_get (Some (column_name c)) order t
      = ({| status := 200; payload := Objects l |}, t)
    /\ Permutation l (map (fun r => marshal (Some r)) t)
    /\ match order with
       | Some o => if o =? "desc" then non_increasing c l
                   else non_decreasing c l
       | None => non_decreasing c l
       end.
Proof.
  rewrite Countries_get_column.
  eexists. split; [reflexivity|]. split.
  - apply Permutation_map, sorted_rows_perm.
  - unfold selected. destruct order as [o|].
    + destruct (o =? "desc").
      * apply marshal_in_order_desc, sorted_rows_in_order.
      * apply marshal_in_order_asc, sorted_rows_in_order.
    + apply marshal_in_order_asc, sorted_rows_in_order.
Qed.

(** ** Primary keys *)

Lemma has_id_true (i : Z) (r : Country) :
  has_id i r = true <-> id r = Some i.
Proof.
  unfold has_id. destruct (id r) as [j|].
  - rewrite Z.eqb_eq. split; [now intros ->|congruence].
  - split; discriminate.
Qed.

Lemma find_has_id (i : Z) (t : table) (r : Country) :
  find (has_id i) t = Some r -> In r t /\ id r = Some i.
Proof.
  intros Hf. apply find_some in Hf. now rewrite has_id_true in Hf.
Qed.

Lemma find_snoc_fresh (i : Z) (t : table) (r : Country) :
  find (has_id i) t = None -> id r = Some i ->
  find (has_id i) (t ++ [r]) = Some r.
Proof.
  intros Hnone Hid.
  induction t as [|h t IH]; simpl in *.
  - now rewrite (proj2 (has_id_true i r) Hid).
  - destruct (has_id i h); [discriminate|]. now apply IH.
Qed.

Lemma fold_max_bound (i j : Z) (rest : list Z) :
  In j (i :: rest) -> j <= fold_right Z.max i rest.
Proof.
  induction rest as [|k rest IH]; simpl; intros Hin.
  - destruct Hin as [<-|[]]. lia.
  - destruct Hin as [<-|[<-|Hin]].
    + specialize (IH (or_introl eq_refl)). lia.
    + lia.
    + specialize (IH (or_intror Hin)). lia.
Qed.

(** SQLite's default choice of a rowid is not in use. *)
Lemma sqlite_rowid_fresh (t : table) :
  find (has_id (sqlite_rowid t)) t = None.
Proof.
  destruct (find (has_id (sqlite_rowid t)) t) as [r|] eqn:Hf; [|reflexivity].
  exfalso. apply find_has_id in Hf. destruct Hf as [Hin Hid].
  assert (Hrow : In (sqlite_rowid t) (rowids t)).
  { unfold rowids. apply in_flat_map. exists r. split; [assumption|].
    rewrite Hid. now left. }
  unfold sqlite_rowid in *.
  destruct (rowids t) as [|i rest] eqn:Hids; [contradiction|].
  pose proof (fold_max_bound i _ rest Hrow). lia.
Qed.

(** ** Read by id *)

Lemma CountryResource_get_found (i : Z) (t : table) (r : Country) :
  in_int64 i = true ->
  find (has_id i) t = Some r ->
  CountryResource_get i t
  = ({| status := 200; payload := Envelope "country" (marshal (Some r)) |},
     t).
Proof.
  intros Hi Hf.
  unfold CountryResource_get, CountryResource_get_body, dispatch,
    marshal_with, get_or_404, get, bind.
  rewrite Hi, Hf. reflexivity.
Qed.

Lemma CountryResource_get_missing (i : Z) (t : table) :
  in_int64 i = true ->
  find (has_id i) t = None ->
  CountryResource_get i t = ({| status := 404; payload := Message |}, t).
Proof.
  intros Hi Hf.
  unfold CountryResource_get, CountryResource_get_body, dispatch,
    marshal_with, get_or_404, get, bind.
  rewrite Hi, Hf. reflexivity.
Qed.

Lemma CountryResource_get_overflow (i : Z) (t : table) :
  in_int64 i = false ->
  CountryResource_get i t = ({| status := 500; payload := Message |}, t).
Proof.
  intros Hi.
  unfold CountryResource_get, CountryResource_get_body, dispatch,
    marshal_with, get_or_404, get, bind.
  rewrite Hi. reflexivity.
Qed.

(** ** Create, then read *)

Lemma Countries_post_result (next_rowid : table -> Z) (data : json_body)
  (t : table) :
  Countries_post next_rowid data t =
  if insert_taken next_rowid (row_of None data) t then
    ({| status := 200;
        payload := Envelope "country"
                     (marshal (Some (row_of (Some (next_rowid t)) data))) |},
     t ++ [row_of (Some (next_rowid t)) data])
  else ({| status := 500; payload := Message |}, t).
Proof.
  unfold Countries_post, Countries_post_body, dispatch, marshal_with,
    add_commit, bind, insert_taken.
  fold (row_of None data).
  destruct (insert_bindable (row_of None data)); [|reflexivity].
  destruct (insert_allowed (row_of None data)); [|reflexivity].
  destruct (in_int64 (next_rowid t)); reflexivity.
Qed.

Lemma insert_taken_key (next_rowid : table -> Z) (r : Country) (t : table) :
  insert_taken next_rowid r t = true -> in_int64 (next_rowid t) = true.
Proof.
  unfold insert_taken. intros H. now apply andb_prop in H.
Qed.

(** C8.  When Create answers with a country, a Get of the id it reports
    answers status 200 with the same seven fields.  The store is asked for
    no more than a primary key that is not in use. *)
Theorem created_country_is_read_back (next_rowid : table -> Z)
  (data : json_body) (t t' : table) (code : Z) (o : country_model) :
  find (has_id (next_rowid t)) t = None ->
  Countries_post next_rowid data t
    = ({| status := code; payload := Envelope "country" o |}, t') ->
  exists i,
    m_id o = Some i /\
    CountryResource_get i t'
      = ({| status := 200; payload := Envelope "country" o |}, t').
Proof.
  intros Hfresh Hpost.
  rewrite Countries_post_result in Hpost.
  destruct (insert_taken _ _ _) eqn:Htaken in Hpost; [|discriminate].
  injection Hpost as _ <- <-.
  exists (next_rowid t). split; [reflexivity|].
  apply (CountryResource_get_found _ _ (row_of (Some (next_rowid t)) data)).
  - exact (insert_taken_key _ _ _ Htaken).
  - now apply find_snoc_fresh.
Qed.

(** The body [wakanda] is created in [two_rows] under SQLite's rowid, 3. *)
Lemma created_country_is_read_back_witness :
  find (has_id (sqlite_rowid two_rows)) two_rows = None /\
  Countries_post sqlite_rowid wakanda two_rows
  = ({| status := 200;
        payload := Envelope "country"
                     (marshal (Some (row_of (Some 3) wakanda))) |},
     two_rows ++ [row_of (Some 3) wakanda]) /\
  exists i,
    m_id (marshal (Some (row_of (Some 3) wakanda))) = Some i /\
    CountryResource_get i (two_rows ++ [row_of (Some 3) wakanda])
    = ({| status := 200;
          payload := Envelope "country"
                       (marshal (Some (row_of (Some 3) wakanda))) |},
       two_rows ++ [row_of (Some 3) wakanda]).
Proof.
  split; [reflexivity|]. split; [reflexivity|].
  apply (created_country_is_read_back sqlite_rowid wakanda two_rows
           (two_rows ++ [row_of (Some 3) wakanda]) 200
           (marshal (Some (row_of (Some 3) wakanda)))); reflexivity.
Defined.

(** ** Update and delete *)

Lemma CountryResource_put_result (i : Z) (data : json_body) (t : table) :
  CountryResource_put i data t =
  if in_int64 i then
    match find (has_id i) t with
    | None => ({| status := 404; payload := Message |}, t)
    | Some old =>
        if update_taken old (row_of (id old) data) then
          ({| status := 200;
              payload := Envelope "country"
                           (marshal (Some (row_of (id old) data))) |},
           map (fun r => match id old with
                         | Some j => if has_id j r then row_of (id old) data
                                     else r
                         | None => r
                         end) t)
        else ({| status := 500; payload := Message |}, t)
    end
  else ({| status := 500; payload := Message |}, t).
Proof.
  unfold CountryResource_put, CountryResource_put_body, dispatch,
    marshal_with, commit_modified, get_or_404, get, bind, ret, row_of,
    update_taken.
  destruct (in_int64 i); [|reflexivity].
  destruct (find (has_id i) t) as [old|]; [|reflexivity].
  cbv beta iota.
  destruct (update_bindable old _); [|reflexivity].
  destruct (update_allowed old _); reflexivity.
Qed.

Lemma CountryResource_delete_result (i : Z) (t : table) :
  CountryResource_delete i t =
  if in_int64 i then
    match find (has_id i) t with
    | None => ({| status := 404; payload := Message |}, t)
    | Some r =>
        ({| status := 200;
            payload := Envelope "country_deleted" (marshal (Some r)) |},
         match id r with
         | Some j => filter (fun x => negb (has_id j x)) t
         | None => t
         end)
    end
  else ({| status := 500; payload := Message |}, t).
Proof.
  unfold CountryResource_delete, CountryResource_delete_body, dispatch,
    marshal_with, delete_commit, get_or_404, get, bind.
  destruct (in_int64 i); [|reflexivity].
  destruct (find (has_id i) t) as [r|]; reflexivity.
Qed.

(** What an Update and a Delete that are answered with status 200 have
    done. *)
Lemma CountryResource_put_200 (i : Z) (data : json_body) (t t' : table)
  (resp : response) :
  CountryResource_put i data t = (resp, t') ->
  status resp = 200 ->
  in_int64 i = true
  /\ (exists old, find (has_id i) t = Some old
                  /\ update_taken old (row_of (Some i) data) = true)
  /\ resp = {| status := 200;
               payload := Envelope "country"
                            (marshal (Some (row_of (Some i) data))) |}
  /\ t' = map (fun r => if has_id i r then row_of (Some i) data else r) t.
Proof.
  intros Hput Hok.
  rewrite CountryResource_put_result in Hput.
  destruct (in_int64 i); [|injection Hput as <- _; discriminate].
  destruct (find (has_id i) t) as [old|] eqn:Hold;
    [|injection Hput as <- _; discriminate].
  destruct (find_has_id _ _ _ Hold) as [_ Hid].
  rewrite Hid in Hput.
  destruct (update_taken _ _) eqn:Htaken;
    [|injection Hput as <- _; discriminate].
  injection Hput as <- <-.
  split; [reflexivity|]. split; [now exists old|]. split; reflexivity.
Qed.

Lemma CountryResource_delete_200 (i : Z) (t t' : table) (resp : response) :
  CountryResource_delete i t = (resp, t') ->
  status resp = 200 ->
  in_int64 i = true
  /\ (exists r, find (has_id i) t = Some r
                /\ resp = {| status := 200;
                             payload := Envelope "country_deleted"
                                          (marshal (Some r)) |})
  /\ t' = filter (fun x => negb (has_id i x)) t.
Proof.
  intros Hdel Hok.
  rewrite CountryResource_delete_result in Hdel.
  destruct (in_int64 i); [|injection Hdel as <- _; discriminate].
  destruct (find (has_id i) t) as [r|] eqn:Hfound;
    [|injection Hdel as <- _; discriminate].
  destruct (find_has_id _ _ _ Hfound) as [_ Hid].
  rewrite Hid in Hdel. injection Hdel as <- <-.
  split; [reflexivity|]. split; [|reflexivity].
  exists r. split; reflexivity.
Qed.

(** The handlers that read leave the table as it is. *)
Lemma Countries_get_reads (sort order : option string) (t : table) :
  snd (Countries_get sort order t) = t.
Proof.
  unfold Countries_get, Countries_get_body, dispatch, marshal_list_with,
    getattr, hasattr_Country, sort_dirs, bind.
  destruct sort as [name|]; [|reflexivity].
  destruct (getattr_Country name) as [[c|]|]; [| |reflexivity];
    (destruct order as [o|]; [|reflexivity]);
    simpl; destruct (o =? "desc"); try reflexivity;
    destruct (o =? "asc"); reflexivity.
Qed.

Lemma CountryWithMaxValue_get_reads (field : string) (t : table) :
  snd (CountryWithMaxValue_get field t) = t.
Proof.
  unfold CountryWithMaxValue_get, CountryWithMaxValue_get_body, dispatch,
    marshal_with, getattr, bind.
  destruct (getattr_Country field) as [[c|]|]; reflexivity.
Qed.

Lemma CountryWithMinValue_get_reads (field : string) (t : table) :
  snd (CountryWithMinValue_get field t) = t.
Proof.
  unfold CountryWithMinValue_get, CountryWithMinValue_get_body, dispatch,
    marshal_with, getattr, bind.
  destruct (getattr_Country field) as [[c|]|]; reflexivity.
Qed.

Lemma CountryAverageValue_get_reads (text_as_real : string -> Q)
  (field : string) (t : table) :
  snd (CountryAverageValue_get text_as_real field t) = t.
Proof.
  unfold CountryAverageValue_get, CountryAverageValue_get_body, dispatch,
    getattr, bind.
  destruct (getattr_Country field) as [[c|]|]; reflexivity.
Qed.

Lemma CountryResource_get_reads (i : Z) (t : table) :
  snd (CountryResource_get i t) = t.
Proof.
  destruct (in_int64 i) eqn:Hi.
  - destruct (find (has_id i) t) as [r|] eqn:Hf.
    + now rewrite (CountryResource_get_found _ _ _ Hi Hf).
    + now rewrite (CountryResource_get_missing _ _ Hi Hf).
  - now rewrite (CountryResource_get_overflow _ _ Hi).
Qed.

(** A primary key that is in no row stays so under [UPDATE] and
    [DELETE]. *)
Lemma find_filter_none (p q : Country -> bool) (t : table) :
  find p t = None -> find p (filter q t) = None.
Proof.
  induction t as [|h t IH]; simpl; [reflexivity|].
  destruct (p h) eqn:Hp; [discriminate|]. intros Hnone.
  destruct (q h); simpl; [rewrite Hp|]; now apply IH.
Qed.

Lemma find_deleted (i : Z) (t : table) :
  find (has_id i) (filter (fun x => negb (has_id i x)) t) = None.
Proof.
  induction t as [|h t IH]; simpl; [reflexivity|].
  destruct (has_id i h) eqn:Hh; simpl; [exact IH|].
  now rewrite Hh.
Qed.

Lemma find_replaced_other (i j : Z) (new : Country) (t : table) :
  has_id i new = false ->
  find (has_id i) t = None ->
  find (has_id i) (map (fun r => if has_id j r then new else r) t) = None.
Proof.
  intros Hnew.
  induction t as [|h t IH]; simpl; [reflexivity|].
  destruct (has_id i h) eqn:Hh; [discriminate|]. intros Hnone.
  destruct (has_id j h); [rewrite Hnew | rewrite Hh]; now apply IH.
Qed.

Lemma find_snoc_other (i : Z) (t : table) (r : Country) :
  find (has_id i) t = None -> has_id i r = false ->
  find (has_id i) (t ++ [r]) = None.
Proof.
  intros Hnone Hr.
  induction t as [|h t IH]; simpl in *.
  - now rewrite Hr.
  - destruct (has_id i h); [discriminate|]. now apply IH.
Qed.

Lemma handle_keeps_absent (next_rowid : table -> Z)
  (text_as_real : string -> Q) (rq : request) (i : Z) (t : table) :
  issues next_rowid i rq t = false ->
  find (has_id i) t = None ->
  find (has_id i) (snd (handle next_rowid text_as_real rq t)) = None.
Proof.
  intros Hrq Habsent.
  destruct rq as [sort order|data|field|field|field|j|j data|j];
    simpl in *.
  - now rewrite Countries_get_reads.
  - rewrite Countries_post_result in *.
    destruct (insert_taken _ _ _); [|assumption].
    simpl in *. now apply find_snoc_other.
  - now rewrite CountryWithMaxValue_get_reads.
  - now rewrite CountryWithMinValue_get_reads.
  - now rewrite CountryAverageValue_get_reads.
  - now rewrite CountryResource_get_reads.
  - rewrite CountryResource_put_result.
    destruct (in_int64 j); [|assumption].
    destruct (find (has_id j) t) as [old|] eqn:Hold; [|assumption].
    destruct (update_taken _ _); [|assumption].
    destruct (find_has_id _ _ _ Hold) as [_ Hid].
    rewrite Hid. simpl snd.
    apply find_replaced_other; [|assumption].
    unfold has_id, row_of; simpl.
    destruct (Z.eqb_spec i j) as [->|Hij]; [congruence|reflexivity].
  - rewrite CountryResource_delete_result.
    destruct (in_int64 j); [|assumption].
    destruct (find (has_id j) t) as [r|]; [|assumption].
    simpl. destruct (id r) as [k|]; [|assumption].
    now apply find_filter_none.
Qed.

Lemma serve_keeps_absent (next_rowid : table -> Z)
  (text_as_real : string -> Q) (rqs : list request) (i : Z) (t : table) :
  never_issued next_rowid text_as_real i rqs t = true ->
  find (has_id i) t = None ->
  find (has_id i) (serve next_rowid text_as_real rqs t) = None.
Proof.
  revert t. unfold serve.
  induction rqs as [|rq rqs IH]; simpl; intros t Hrqs Habsent;
    [assumption|].
  apply andb_prop in Hrqs. destruct Hrqs as [Hrq Hrqs].
  apply negb_true_iff in Hrq.
  apply IH; [assumption|]. now apply handle_keeps_absent.
Qed.

(** Requests that create nothing issue no id. *)
Lemma creates_nothing_never_issued (next_rowid : table -> Z)
  (text_as_real : string -> Q) (i : Z) (rqs : list request) (t : table) :
  forallb creates_nothing rqs = true ->
  never_issued next_rowid text_as_real i rqs t = true.
Proof.
  revert t.
  induction rqs as [|rq rqs IH]; simpl; intros t Hrqs; [reflexivity|].
  apply andb_prop in Hrqs. destruct Hrqs as [Hrq Hrqs].
  rewrite IH by assumption.
  destruct rq; try discriminate; reflexivity.
Qed.

(** C9 (amended).  A Delete that is answered with status 200 answers with
    the deleted record under [country_deleted]; from then on a Get of that
    id answers 404, after any sequence of requests in which no Create
    answers with that id anew. *)
Theorem deleted_country_is_not_found (next_rowid : table -> Z)
  (text_as_real : string -> Q) (i : Z) (t t' : table) (resp : response) :
  CountryResource_delete i t = (resp, t') ->
  status resp = 200 ->
  (exists r,
      find (has_id i) t = Some r
      /\ resp = {| status := 200;
                   payload := Envelope "country_deleted"
                                (marshal (Some r)) |})
  /\ forall rqs,
       never_issued next_rowid text_as_real i rqs t' = true ->
       CountryResource_get i (serve next_rowid text_as_real rqs t')
       = ({| status := 404; payload := Message |},
          serve next_rowid text_as_real rqs t').
Proof.
  intros Hdel Hok.
  destruct (CountryResource_delete_200 _ _ _ _ Hdel Hok)
    as [Hi [Hfound ->]].
  split; [exact Hfound|].
  intros rqs Hrqs.
  apply CountryResource_get_missing; [assumption|].
  apply serve_keeps_absent; [assumption|].
  apply find_deleted.
Qed.

(** Row 2 of [two_rows] is deleted; a Get, an Update and a Delete of it
    follow, then a List: a further Get of 2 answers 404. *)
Lemma deleted_country_is_not_found_witness :
  status (fst (CountryResource_delete 2 two_rows)) = 200 /\
  fst (CountryResource_get 2
         (serve sqlite_rowid (fun _ => 0%Q)
            [Get 2; Update 2 wakanda; Delete 2; List_ None None]
            (snd (CountryResource_delete 2 two_rows))))
  = {| status := 404; payload := Message |}.
Proof.
  split; [reflexivity|].
  destruct (deleted_country_is_not_found sqlite_rowid (fun _ => 0%Q) 2
              two_rows (snd (CountryResource_delete 2 two_rows))
              (fst (CountryResource_delete 2 two_rows)) eq_refl eq_refl)
    as [_ Hget].
  rewrite Hget; [reflexivity|].
  now apply creates_nothing_never_issued.
Defined.

(** C9 (as stated) fails: SQLite gives a new row the largest id in use
    plus one.  Row 2, the last of [two_rows], is deleted with status 200
    and a Get of 2 answers 404; a Create follows and receives the id 2, and
    the next Get of 2 answers 200 with the new country. *)
Lemma deleted_id_is_given_again :
  status (fst (CountryResource_delete 2 two_rows)) = 200 /\
  fst (CountryResource_get 2 (snd (CountryResource_delete 2 two_rows)))
  = {| status := 404; payload := Message |} /\
  fst (CountryResource_get 2
         (serve sqlite_rowid (fun _ => 0%Q) [Create wakanda]
            (snd (CountryResource_delete 2 two_rows))))
  = {| status := 200;
       payload := Envelope "country"
                    (marshal (Some (row_of (Some 2) wakanda))) |}.
Proof. repeat split. Qed.

(** C10.  An Update that answers status 200 reports the id it was asked
    for and keeps the length of the table; every row keeps its place and
    its id; the row of that id holds the six fields of the body, and every
    row of another id is entirely as it was. *)
Theorem update_changes_one_row (i : Z) (data : json_body) (t t' : table)
  (resp : response) :
  CountryResource_put i data t = (resp, t') ->
  status resp = 200 ->
  (exists o, payload resp = Envelope "country" o /\ m_id o = Some i)
  /\ List.length t' = List.length t
  /\ forall n r, nth_error t n = Some r ->
       exists r', nth_error t' n = Some r'
                  /\ id r' = id r
                  /\ (id r = Some i -> r' = row_of (Some i) data)
                  /\ (id r <> Some i -> r' = r).
Proof.
  intros Hput Hok.
  destruct (CountryResource_put_200 _ _ _ _ _ Hput Hok)
    as [_ [_ [-> ->]]].
  split; [eexists; split; reflexivity|].
  split; [apply length_map|].
  intros n r Hn.
  rewrite nth_error_map, Hn. simpl.
  destruct (has_id i r) eqn:Hr.
  - eexists. split; [reflexivity|].
    apply has_id_true in Hr. rewrite Hr.
    repeat split; congruence.
  - exists r. split; [reflexivity|]. split; [reflexivity|].
    split; [|reflexivity].
    intros Hi. apply has_id_true in Hi. congruence.
Qed.

(** Row 2 of [two_rows] is updated with the body [wakanda]. *)
Lemma update_changes_one_row_witness :
  CountryResource_put 2 wakanda two_rows
  = ({| status := 200;
        payload := Envelope "country"
                     (marshal (Some (row_of (Some 2) wakanda))) |},
     [nth 0 two_rows (row_of None wakanda); row_of (Some 2) wakanda])
  /\ List.length [nth 0 two_rows (row_of None wakanda);
                  row_of (Some 2) wakanda]
     = List.length two_rows.
Proof.
  split; [reflexivity|].
  apply (update_changes_one_row 2 wakanda two_rows _
           {| status := 200;
              payload := Envelope "country"
                           (marshal (Some (row_of (Some 2) wakanda))) |});
    reflexivity.
Defined.

(** ** Bodies that omit a field *)

Lemma insert_allowed_row_of (i : option Z) (data : json_body) :
  insert_allowed (row_of i data) = negb (omits data).
Proof.
  destruct data as [[a|] [b|] [c|] [d|] [e|] [f|]]; reflexivity.
Qed.

Lemma insert_bindable_row_of (data : json_body) :
  insert_bindable (row_of None data) = fits data.
Proof.
  unfold insert_bindable, fits, row_of. simpl.
  destruct (get_country_name data), (get_capital_of_the_country data),
    (get_living_standard data); simpl;
    now rewrite andb_true_r, andb_assoc.
Qed.

Lemma insert_taken_row_of (next_rowid : table -> Z) (data : json_body)
  (t : table) :
  insert_taken next_rowid (row_of None data) t
  = fits data && negb (omits data) && in_int64 (next_rowid t).
Proof.
  unfold insert_taken.
  now rewrite insert_bindable_row_of, insert_allowed_row_of.
Qed.

Lemma update_taken_allowed (old new : Country) :
  update_taken old new = true -> update_allowed old new = true.
Proof. unfold update_taken. intros H. now apply andb_prop in H. Qed.

Lemma insert_allowed_fields (r : Country) :
  insert_allowed r = true ->
  exists a b c d e f,
    r = {| id := id r; country_name := Some a;
           capital_of_the_country := Some b; living_standard := Some c;
           country_area := Some d; population_of_the_country := Some e;
           phone_code := Some f |}.
Proof.
  destruct r as [i [a|] [b|] [c|] [d|] [e|] [f|]]; try discriminate.
  intros _. now exists a, b, c, d, e, f.
Qed.

Lemma update_allowed_row_of (old : Country) (data : json_body) :
  insert_allowed old = true ->
  update_allowed old (row_of (id old) data) = negb (omits data).
Proof.
  intros Hold.
  destruct (insert_allowed_fields old Hold)
    as (a & b & c & d & e & f & ->).
  destruct data as [[a'|] [b'|] [c'|] [d'|] [e'|] [f'|]]; reflexivity.
Qed.

(** The rows of the table obey NOT NULL, whatever is asked of the
    service. *)
Lemma handle_keeps_not_null (next_rowid : table -> Z)
  (text_as_real : string -> Q) (rq : request) (t : table) :
  forallb insert_allowed t = true ->
  forallb insert_allowed (snd (handle next_rowid text_as_real rq t)) = true.
Proof.
  intros Hinv.
  destruct rq as [sort order|data|field|field|field|j|j data|j]; simpl.
  - now rewrite Countries_get_reads.
  - rewrite Countries_post_result.
    destruct (insert_taken _ _ _) eqn:Hnew; [|assumption].
    simpl. rewrite forallb_app, Hinv. simpl.
    rewrite insert_taken_row_of in Hnew.
    apply andb_prop in Hnew. destruct Hnew as [Hnew _].
    apply andb_prop in Hnew. destruct Hnew as [_ Hnew].
    now rewrite insert_allowed_row_of, Hnew.
  - now rewrite CountryWithMaxValue_get_reads.
  - now rewrite CountryWithMinValue_get_reads.
  - now rewrite CountryAverageValue_get_reads.
  - now rewrite CountryResource_get_reads.
  - rewrite CountryResource_put_result.
    destruct (in_int64 j); [|assumption].
    destruct (find (has_id j) t) as [old|] eqn:Hold; [|assumption].
    destruct (update_taken _ _) eqn:Hnew; [|assumption].
    apply update_taken_allowed in Hnew.
    destruct (find_has_id _ _ _ Hold) as [Hin Hid].
    assert (Hok : insert_allowed old = true).
    { rewrite forallb_forall in Hinv. now apply Hinv. }
    rewrite update_allowed_row_of in Hnew by assumption.
    rewrite Hid. simpl snd.
    rewrite forallb_forall in *. intros x Hx.
    apply in_map_iff in Hx. destruct Hx as [y [<- Hy]].
    destruct (has_id j y); [|now apply Hinv].
    now rewrite insert_allowed_row_of.
  - rewrite CountryResource_delete_result.
    destruct (in_int64 j); [|assumption].
    destruct (find (has_id j) t) as [r|]; [|assumption].
    simpl. destruct (id r) as [k|]; [|assumption].
    rewrite forallb_forall in *. intros x Hx.
    apply filter_In in Hx. now apply Hinv.
Qed.

Lemma serve_keeps_not_null (next_rowid : table -> Z)
  (text_as_real : string -> Q) (rqs : list request) :
  forallb insert_allowed (serve next_rowid text_as_real rqs []) = true.
Proof.
  unfold serve.
  assert (H : forall t, forallb insert_allowed t = true ->
            forallb insert_allowed
              (fold_left (fun t rq => snd (handle next_rowid text_as_real rq t))
                         rqs t) = true).
  { induction rqs as [|rq rqs IH]; simpl; intros t Hinv; [assumption|].
    now apply IH, handle_keeps_not_null. }
  now apply H.
Qed.

(** C3 (amended).  A Create, or an Update of a stored row, whose body omits
    some of the six fields passes null for it; the NOT NULL constraint of
    the column refuses the write: the answer is status 500 and the table
    is as before.  The stored row is one that obeys NOT NULL, as every row
    the service stores does ([serve_keeps_not_null]). *)
Theorem omitted_field_is_refused (next_rowid : table -> Z)
  (data : json_body) (t : table) :
  omits data = true ->
  Countries_post next_rowid data t
    = ({| status := 500; payload := Message |}, t)
  /\ forall i old,
       find (has_id i) t = Some old ->
       insert_allowed old = true ->
       CountryResource_put i data t
       = ({| status := 500; payload := Message |}, t).
Proof.
  intros Homits. split.
  - rewrite Countries_post_result, insert_taken_row_of, Homits.
    now rewrite andb_false_r.
  - intros i old Hfound Hold.
    rewrite CountryResource_put_result, Hfound.
    unfold update_taken.
    rewrite update_allowed_row_of, Homits by assumption.
    rewrite andb_false_r. now destruct (in_int64 i).
Qed.

Lemma omitted_field_is_refused_witness :
  omits only_name = true /\
  Countries_post sqlite_rowid only_name two_rows
  = ({| status := 500; payload := Message |}, two_rows).
Proof.
  split; [reflexivity|].
  apply (omitted_field_is_refused sqlite_rowid only_name two_rows).
  reflexivity.
Defined.

(** C3 (as stated) fails: with only [country_name] in the body, Create on
    the empty table and Update of row 1 both answer 500, and no null is
    stored. *)
Lemma partial_body_is_not_stored :
  Countries_post sqlite_rowid only_name []
    = ({| status := 500; payload := Message |}, []) /\
  CountryResource_put 1 only_name two_rows
    = ({| status := 500; payload := Message |}, two_rows).
Proof. split; reflexivity. Qed.

(** * Further properties of the handlers *)

(** ** Reads, failures and status codes *)

(** X1.  A Get, an Update or a Delete of an id that no row has answers
    status 404 and leaves the table as it is, whatever the body, when the
    id is within the 64 bits of SQLite; an id beyond them is answered with
    status 500, and the table is as it was as well. *)
Theorem absent_id_answers_404 (i : Z) (data : json_body) (t : table) :
  0 <= i ->
  find (has_id i) t = None ->
  let answer :=
    ({| status := if (i <? 2 ^ 63)%Z then 404 else 500; payload := Message |}, t)
  in
  CountryResource_get i t = answer
  /\ CountryResource_put i data t = answer
  /\ CountryResource_delete i t = answer.
Proof.
  intros Hpos Hnone answer. subst answer.
  rewrite CountryResource_put_result, CountryResource_delete_result, Hnone.
  assert (Hrange : in_int64 i = (i <? 2 ^ 63)%Z).
  { unfold in_int64.
    replace (- 2 ^ 63 <=? i)%Z with true; [reflexivity|].
    symmetry. apply Z.leb_le. lia. }
  rewrite Hrange.
  destruct (i <? 2 ^ 63)%Z eqn:Hi.
  - split; [|split; reflexivity].
    apply CountryResource_get_missing; [now rewrite Hrange|assumption].
  - split; [|split; reflexivity].
    apply CountryResource_get_overflow. now rewrite Hrange.
Qed.

(** Id 7 is in no row of [two_rows]. *)
Lemma absent_id_answers_404_witness :
  0 <= 7 /\
  find (has_id 7) two_rows = None /\
  CountryResource_put 7 wakanda two_rows
  = ({| status := 404; payload := Message |}, two_rows).
Proof.
  split; [lia|]. split; [reflexivity|].
  apply (absent_id_answers_404 7 wakanda two_rows); [lia|reflexivity].
Defined.

(** X2.  The five handlers that read (List, Max, Min, Average, Get) leave
    the table as it is, on every input, also when they fail. *)
Theorem reading_leaves_the_table (text_as_real : string -> Q)
  (sort order : option string) (field : string) (i : Z) (t : table) :
  snd (Countries_get sort order t) = t
  /\ snd (CountryWithMaxValue_get field t) = t
  /\ snd (CountryWithMinValue_get field t) = t
  /\ snd (CountryAverageValue_get text_as_real field t) = t
  /\ snd (CountryResource_get i t) = t.
Proof.
  repeat split.
  - apply Countries_get_reads.
  - apply CountryWithMaxValue_get_reads.
  - apply CountryWithMinValue_get_reads.
  - apply CountryAverageValue_get_reads.
  - apply CountryResource_get_reads.
Qed.

(** X3.  A request that is not answered with status 200 changes nothing:
    a refused Create or Update and a Delete of an absent id leave the
    table as it was.  The requests are those of this file: the body of a
    Create or an Update is a JSON object whose fields, where present, are
    of the types of [country_model]. *)
Theorem failed_request_changes_nothing (next_rowid : table -> Z)
  (text_as_real : string -> Q) (rq : request) (t : table) :
  status (fst (handle next_rowid text_as_real rq t)) <> 200 ->
  snd (handle next_rowid text_as_real rq t) = t.
Proof.
  destruct rq as [sort order|data|field|field|field|j|j data|j]; simpl.
  - intros _. apply Countries_get_reads.
  - rewrite Countries_post_result.
    destruct (insert_taken _ _ _); simpl; [congruence|reflexivity].
  - intros _. apply CountryWithMaxValue_get_reads.
  - intros _. apply CountryWithMinValue_get_reads.
  - intros _. apply CountryAverageValue_get_reads.
  - intros _. apply CountryResource_get_reads.
  - rewrite CountryResource_put_result.
    destruct (in_int64 j); [|reflexivity].
    destruct (find (has_id j) t) as [old|]; [|reflexivity].
    destruct (update_taken _ _); simpl; [congruence|reflexivity].
  - rewrite CountryResource_delete_result.
    destruct (in_int64 j); [|reflexivity].
    destruct (find (has_id j) t) as [r|]; simpl; [congruence|reflexivity].
Qed.

(** A Create with one field only is refused and stores nothing. *)
Lemma failed_request_changes_nothing_witness :
  status (fst (handle sqlite_rowid (fun _ => 0%Q) (Create only_name)
                 two_rows)) <> 200 /\
  snd (handle sqlite_rowid (fun _ => 0%Q) (Create only_name) two_rows)
  = two_rows.
Proof.
  split; [discriminate|].
  apply (failed_request_changes_nothing sqlite_rowid (fun _ => 0%Q)
           (Create only_name) two_rows).
  discriminate.
Defined.

(** X5.  The parameter [order] counts only when it is [desc]: with any
    other value, a List request is answered as it is without it, for
    every value of [sort]. *)
Theorem order_other_than_desc_is_default (sort order : option string)
  (t : table) :
  order <> Some "desc" ->
  Countries_get sort order t = Countries_get sort None t.
Proof.
  intros Hnot.
  destruct order as [o|]; [|reflexivity].
  unfold Countries_get, Countries_get_body, dispatch, marshal_list_with,
    sort_dirs, bind.
  destruct (String.eqb_spec o "desc") as [->|_]; [congruence|].
  destruct (o =? "asc"); reflexivity.
Qed.

(** [order=DESC], in capitals, lists as the default does. *)
Lemma order_other_than_desc_is_default_witness :
  Some "DESC" <> Some "desc" /\
  Countries_get (Some "phone_code") (Some "DESC") two_rows
  = Countries_get (Some "phone_code") None two_rows.
Proof.
  split; [discriminate|].
  apply (order_other_than_desc_is_default (Some "phone_code") (Some "DESC")
           two_rows).
  discriminate.
Defined.

(** ** Create, update and delete *)

Lemma find_app_found (i : Z) (t : table) (r x : Country) :
  find (has_id i) t = Some r -> find (has_id i) (t ++ [x]) = Some r.
Proof.
  induction t as [|h t IH]; simpl; [discriminate|].
  destruct (has_id i h); [trivial|exact IH].
Qed.

Lemma insert_taken_complete (next_rowid : table -> Z) (data : json_body)
  (t : table) :
  omits data = false -> fits data = true ->
  in_int64 (next_rowid t) = true ->
  insert_taken next_rowid (row_of None data) t = true.
Proof.
  intros Hall Hfits Hkey.
  now rewrite insert_taken_row_of, Hall, Hfits, Hkey.
Qed.

(** X6.  A Create whose body has the six fields, of the types of
    [country_model] and its integers within the 64 bits of SQLite, to
    which the store gives a key, answers with these fields and the primary key the
    store chose, adds that one row to the table, and leaves every country
    that was there readable as before. *)
Theorem complete_body_is_created (next_rowid : table -> Z)
  (data : json_body) (t : table) :
  let answer := fst (Countries_post next_rowid data t) in
  let t' := snd (Countries_post next_rowid data t) in
  omits data = false ->
  fits data = true ->
  in_int64 (next_rowid t) = true ->
  payload answer
  = Envelope "country"
      {| m_id := Some (next_rowid t);
         m_country_name := get_country_name data;
         m_capital_of_the_country := get_capital_of_the_country data;
         m_living_standard := get_living_standard data;
         m_country_area := get_country_area data;
         m_population_of_the_country := get_population_of_the_country data;
         m_phone_code := get_phone_code data |}
  /\ Permutation t' (row_of (Some (next_rowid t)) data :: t)
  /\ forall j r, find (has_id j) t = Some r ->
       CountryResource_get j t' = (fst (CountryResource_get j t), t').
Proof.
  intros answer t' Hall Hfits Hkey. subst answer t'.
  rewrite Countries_post_result, insert_taken_complete by assumption.
  simpl. split; [reflexivity|]. split.
  - apply Permutation_sym, Permutation_cons_append.
  - intros j r Hf.
    destruct (in_int64 j) eqn:Hj.
    + rewrite (CountryResource_get_found _ _ _ Hj Hf).
      now apply CountryResource_get_found, find_app_found.
    + now rewrite !(CountryResource_get_overflow _ _ Hj).
Qed.

(** The body [wakanda] has the six fields, within the 64 bits. *)
Lemma complete_body_is_created_witness :
  omits wakanda = false /\
  fits wakanda = true /\
  in_int64 (sqlite_rowid two_rows) = true /\
  payload (fst (Countries_post sqlite_rowid wakanda two_rows))
  = Envelope "country" (marshal (Some (row_of (Some 3) wakanda))) /\
  Permutation (snd (Countries_post sqlite_rowid wakanda two_rows))
              (row_of (Some 3) wakanda :: two_rows).
Proof.
  split; [reflexivity|]. split; [reflexivity|]. split; [reflexivity|].
  destruct (complete_body_is_created sqlite_rowid wakanda two_rows
              eq_refl eq_refl eq_refl)
    as [Hpost [Hperm _]].
  split; [exact Hpost|exact Hperm].
Defined.

(** X7.  For a body whose fields, where present, are of the types of
    [country_model], the status of a Create is 200 when the body has the
    six fields, its integers are within the 64 bits of SQLite and the
    store has a key for the row, and 500 otherwise; it is never 201, the
    code that the decorator of the handler documents. *)
Theorem create_answers_200_or_500 (next_rowid : table -> Z)
  (data : json_body) (t : table) :
  status (fst (Countries_post next_rowid data t))
  = if fits data && negb (omits data) && in_int64 (next_rowid t)
    then 200 else 500.
Proof.
  rewrite Countries_post_result, insert_taken_row_of.
  destruct (fits data && negb (omits data) && in_int64 (next_rowid t));
    reflexivity.
Qed.

Lemma find_replaced (i : Z) (new old : Country) (t : table) :
  find (has_id i) t = Some old -> has_id i new = true ->
  find (has_id i) (map (fun r => if has_id i r then new else r) t)
  = Some new.
Proof.
  intros Hold Hnew.
  induction t as [|h t IH]; simpl in *; [discriminate|].
  destruct (has_id i h) eqn:Hh.
  - now rewrite Hnew.
  - rewrite Hh. now apply IH.
Qed.

Lemma update_allowed_same (r : Country) : update_allowed r r = true.
Proof.
  destruct r as [i [a|] [b|] [c|] [d|] [e|] [f|]]; reflexivity.
Qed.

Lemma value_eqb_refl (v : value) : value_eqb v v = true.
Proof.
  destruct v as [|z|u]; simpl;
    [reflexivity|apply Z.eqb_refl|apply String.eqb_refl].
Qed.

Lemma update_taken_same (r : Country) : update_taken r r = true.
Proof.
  unfold update_taken. rewrite update_allowed_same, andb_true_r.
  unfold update_bindable. apply forallb_forall. intros c _.
  now rewrite value_eqb_refl.
Qed.

Lemma replace_twice (i : Z) (new : Country) (t : table) :
  has_id i new = true ->
  map (fun r => if has_id i r then new else r)
      (map (fun r => if has_id i r then new else r) t)
  = map (fun r => if has_id i r then new else r) t.
Proof.
  intros Hnew. rewrite map_map. apply map_ext. intros r.
  destruct (has_id i r) eqn:Hr; [now rewrite Hnew|now rewrite Hr].
Qed.

(** X8.  After an Update answered with status 200, a Get of the same id
    answers exactly what the Update answered: the six fields of the body
    under the id. *)
Theorem updated_country_is_read_back (i : Z) (data : json_body)
  (t t' : table) (resp : response) :
  CountryResource_put i data t = (resp, t') ->
  status resp = 200 ->
  CountryResource_get i t' = (resp, t')
  /\ resp = {| status := 200;
              payload := Envelope "country"
                           (marshal (Some (row_of (Some i) data))) |}.
Proof.
  intros Hput Hok.
  destruct (CountryResource_put_200 _ _ _ _ _ Hput Hok)
    as [Hi [[old [Hold _]] [-> ->]]].
  split; [|reflexivity].
  apply (CountryResource_get_found i _ (row_of (Some i) data) Hi).
  apply (find_replaced i (row_of (Some i) data) old); [assumption|].
  now apply has_id_true.
Qed.

Lemma updated_country_is_read_back_witness :
  CountryResource_get 2 (snd (CountryResource_put 2 wakanda two_rows))
  = CountryResource_put 2 wakanda two_rows.
Proof.
  apply (updated_country_is_read_back 2 wakanda two_rows
           (snd (CountryResource_put 2 wakanda two_rows))
           (fst (CountryResource_put 2 wakanda two_rows)));
    reflexivity.
Defined.

(** X9.  An Update repeated with the same id and body answers as the first
    one did and leaves the table as the first one left it. *)
Theorem update_twice_is_update_once (i : Z) (data : json_body) (t : table) :
  CountryResource_put i data (snd (CountryResource_put i data t))
  = CountryResource_put i data t.
Proof.
  rewrite (CountryResource_put_result i data t).
  destruct (in_int64 i) eqn:Hi;
    [|simpl snd; rewrite CountryResource_put_result, Hi; reflexivity].
  destruct (find (has_id i) t) as [old|] eqn:Hold.
  - destruct (update_taken old (row_of (id old) data)) eqn:Htaken.
    + destruct (find_has_id _ _ _ Hold) as [_ Hid].
      rewrite Hid. simpl snd.
      assert (Hnew : has_id i (row_of (Some i) data) = true)
        by now apply has_id_true.
      rewrite CountryResource_put_result, Hi.
      rewrite (find_replaced i _ old t Hold Hnew).
      change (id (row_of (Some i) data)) with (Some i).
      rewrite update_taken_same.
      now rewrite replace_twice.
    + simpl snd. rewrite CountryResource_put_result, Hi, Hold, Htaken.
      reflexivity.
  - simpl snd. rewrite CountryResource_put_result, Hi, Hold. reflexivity.
Qed.

Lemma find_filter_other (i j : Z) (t : table) :
  i <> j ->
  find (has_id j) (filter (fun x => negb (has_id i x)) t)
  = find (has_id j) t.
Proof.
  intros Hij.
  induction t as [|h t IH]; simpl; [reflexivity|].
  destruct (has_id i h) eqn:Hi; simpl.
  - destruct (has_id j h) eqn:Hj; [|exact IH].
    apply has_id_true in Hi, Hj. congruence.
  - now rewrite IH.
Qed.

(** X10.  A Delete answered with status 200 removes the rows of that id
    and nothing else: the table keeps the other rows, in their order, and
    a Get of any other id is answered as before. *)
Theorem delete_leaves_the_others (i : Z) (t t' : table) (resp : response) :
  CountryResource_delete i t = (resp, t') ->
  status resp = 200 ->
  t' = filter (fun x => negb (has_id i x)) t
  /\ (forall x, In x t' <-> In x t /\ id x <> Some i)
  /\ forall j, j <> i ->
       CountryResource_get j t' = (fst (CountryResource_get j t), t').
Proof.
  intros Hdel Hok.
  destruct (CountryResource_delete_200 _ _ _ _ Hdel Hok) as [_ [_ ->]].
  split; [reflexivity|]. split.
  - intros x. rewrite filter_In, negb_true_iff.
    rewrite <- has_id_true.
    destruct (has_id i x); intuition congruence.
  - intros j Hj.
    pose proof (find_filter_other i j t (not_eq_sym Hj)) as Hsame.
    destruct (in_int64 j) eqn:Hrange;
      [|now rewrite !(CountryResource_get_overflow _ _ Hrange)].
    destruct (find (has_id j) t) as [x|] eqn:Hx.
    + rewrite (CountryResource_get_found j t x Hrange Hx).
      now apply CountryResource_get_found.
    + rewrite (CountryResource_get_missing j t Hrange Hx).
      now apply CountryResource_get_missing.
Qed.

Lemma delete_leaves_the_others_witness :
  status (fst (CountryResource_delete 1 two_rows)) = 200 /\
  snd (CountryResource_delete 1 two_rows)
  = filter (fun x => negb (has_id 1 x)) two_rows.
Proof.
  split; [reflexivity|].
  apply (delete_leaves_the_others 1 two_rows
           (snd (CountryResource_delete 1 two_rows))
           (fst (CountryResource_delete 1 two_rows)));
    reflexivity.
Defined.

(** X11.  After a Delete answered with status 200, a second Delete and an
    Update of the same id answer 404 and change nothing. *)
Theorem deleted_country_cannot_be_changed (i : Z) (data : json_body)
  (t t' : table) (resp : response) :
  CountryResource_delete i t = (resp, t') ->
  status resp = 200 ->
  CountryResource_delete i t' = ({| status := 404; payload := Message |}, t')
  /\ CountryResource_put i data t'
     = ({| status := 404; payload := Message |}, t').
Proof.
  intros Hdel Hok.
  destruct (CountryResource_delete_200 _ _ _ _ Hdel Hok) as [Hi [_ ->]].
  rewrite CountryResource_delete_result, CountryResource_put_result.
  rewrite Hi, find_deleted. split; reflexivity.
Qed.

Lemma deleted_country_cannot_be_changed_witness :
  status (fst (CountryResource_delete 1 two_rows)) = 200 /\
  CountryResource_delete 1 (snd (CountryResource_delete 1 two_rows))
  = ({| status := 404; payload := Message |},
     snd (CountryResource_delete 1 two_rows)).
Proof.
  split; [reflexivity|].
  apply (deleted_country_cannot_be_changed 1 wakanda two_rows
           (snd (CountryResource_delete 1 two_rows))
           (fst (CountryResource_delete 1 two_rows)));
    reflexivity.
Defined.

(** ** Invariants of the table *)

(** X12.  Whatever requests are served, no stored row lacks one of its six
    fields: if the rows of the table have them all, so do the rows of the
    table after any sequence of requests. *)
Theorem stored_rows_are_complete (next_rowid : table -> Z)
  (text_as_real : string -> Q) (rqs : list request) (t : table) :
  forallb insert_allowed t = true ->
  forall r, In r (serve next_rowid text_as_real rqs t) ->
    exists a b c d e f,
      r = {| id := id r; country_name := Some a;
             capital_of_the_country := Some b; living_standard := Some c;
             country_area := Some d; population_of_the_country := Some e;
             phone_code := Some f |}.
Proof.
  intros Hinv r Hin.
  apply insert_allowed_fields.
  revert t Hinv Hin. unfold serve.
  induction rqs as [|rq rqs IH]; simpl; intros t Hinv Hin.
  - rewrite forallb_forall in Hinv. now apply Hinv.
  - apply (IH (snd (handle next_rowid text_as_real rq t)));
      [now apply handle_keeps_not_null|assumption].
Qed.

(** From the empty table: two Creates, one of them refused, and an
    Update. *)
Lemma stored_rows_are_complete_witness :
  forallb insert_allowed [] = true /\
  forall r,
    In r (serve sqlite_rowid (fun _ => 0%Q)
            [Create wakanda; Create only_name; Update 1 wakanda] []) ->
    exists a b c d e f,
      r = {| id := id r; country_name := Some a;
             capital_of_the_country := Some b; living_standard := Some c;
             country_area := Some d; population_of_the_country := Some e;
             phone_code := Some f |}.
Proof.
  split; [reflexivity|].
  apply (stored_rows_are_complete sqlite_rowid (fun _ => 0%Q)
           [Create wakanda; Create only_name; Update 1 wakanda] []).
  reflexivity.
Defined.

Lemma in_rowids (k : Z) (t : table) :
  In k (rowids t) <-> exists r, In r t /\ id r = Some k.
Proof.
  unfold rowids. rewrite in_flat_map. split.
  - intros [r [Hin Hk]]. exists r. split; [assumption|].
    destruct (id r) as [j|]; [|contradiction].
    destruct Hk as [<-|[]]. reflexivity.
  - intros [r [Hin Hk]]. exists r. split; [assumption|].
    rewrite Hk. now left.
Qed.

Lemma fresh_not_in_rowids (k : Z) (t : table) :
  find (has_id k) t = None -> ~ In k (rowids t).
Proof.
  intros Hnone Hin. apply in_rowids in Hin. destruct Hin as [r [Hin Hk]].
  pose proof (find_none _ _ Hnone r Hin) as Hfalse.
  apply has_id_true in Hk. congruence.
Qed.

Lemma rowids_replaced (i : Z) (new : Country) (t : table) :
  id new = Some i ->
  rowids (map (fun r => if has_id i r then new else r) t) = rowids t.
Proof.
  intros Hnew. unfold rowids.
  induction t as [|h t IH]; simpl; [reflexivity|].
  rewrite IH. destruct (has_id i h) eqn:Hh; [|reflexivity].
  apply has_id_true in Hh. now rewrite Hnew, Hh.
Qed.

Lemma rowids_filter_incl (q : Country -> bool) (t : table) (k : Z) :
  In k (rowids (filter q t)) -> In k (rowids t).
Proof.
  rewrite !in_rowids. intros [r [Hin Hk]].
  apply filter_In in Hin. exists r. tauto.
Qed.

Lemma rowids_filter_nodup (q : Country -> bool) (t : table) :
  NoDup (rowids t) -> NoDup (rowids (filter q t)).
Proof.
  unfold rowids.
  induction t as [|h t IH]; simpl; intros Hnd; [constructor|].
  destruct (id h) as [k|] eqn:Hk; simpl in Hnd.
  - inversion Hnd as [|? ? Hnotin Hrest]; subst.
    destruct (q h); simpl; [|now apply IH].
    rewrite Hk. simpl. constructor; [|now apply IH].
    intros Hin. apply Hnotin. now apply (rowids_filter_incl q t k).
  - destruct (q h); simpl; [rewrite Hk; simpl|]; now apply IH.
Qed.

Lemma handle_keeps_unique_keys (next_rowid : table -> Z)
  (text_as_real : string -> Q) (rq : request) (t : table) :
  find (has_id (next_rowid t)) t = None ->
  unique_keys t ->
  unique_keys (snd (handle next_rowid text_as_real rq t)).
Proof.
  intros Hfresh [Hids Hnd].
  destruct rq as [sort order|data|field|field|field|j|j data|j]; simpl.
  - now rewrite Countries_get_reads.
  - rewrite Countries_post_result.
    destruct (insert_taken _ _ _); [|now split].
    simpl. split.
    + apply Forall_app. split; [assumption|].
      constructor; [discriminate|constructor].
    + unfold rowids in *. rewrite flat_map_app. simpl.
      apply NoDup_app; [assumption|repeat constructor; intros []|].
      intros k Hk [<-|[]].
      now apply (fresh_not_in_rowids _ _ Hfresh).
  - now rewrite CountryWithMaxValue_get_reads.
  - now rewrite CountryWithMinValue_get_reads.
  - now rewrite CountryAverageValue_get_reads.
  - now rewrite CountryResource_get_reads.
  - rewrite CountryResource_put_result.
    destruct (in_int64 j); [|now split].
    destruct (find (has_id j) t) as [old|] eqn:Hold; [|now split].
    destruct (update_taken _ _); [|now split].
    destruct (find_has_id _ _ _ Hold) as [_ Hid].
    rewrite Hid. simpl snd. split.
    + apply Forall_map. eapply Forall_impl; [|exact Hids].
      intros r Hr. cbv beta.
      destruct (has_id j r); [discriminate|assumption].
    + now rewrite rowids_replaced.
  - rewrite CountryResource_delete_result.
    destruct (in_int64 j); [|now split].
    destruct (find (has_id j) t) as [r|]; [|now split].
    simpl. destruct (id r) as [k|]; [|now split].
    split.
    + apply Forall_forall. intros x Hx. apply filter_In in Hx.
      rewrite Forall_forall in Hids. now apply Hids.
    + now apply rowids_filter_nodup.
Qed.

(** X13.  When the store gives each new row a primary key that is not in
    use, every row has an id and no two rows share one, after any sequence
    of requests: an id names at most one country. *)
Theorem keys_stay_unique (next_rowid : table -> Z)
  (text_as_real : string -> Q) (rqs : list request) (t : table) :
  (forall t0, find (has_id (next_rowid t0)) t0 = None) ->
  unique_keys t ->
  unique_keys (serve next_rowid text_as_real rqs t).
Proof.
  intros Hfresh. revert t. unfold serve.
  induction rqs as [|rq rqs IH]; simpl; intros t Hu; [assumption|].
  apply IH. now apply handle_keeps_unique_keys.
Qed.

(** SQLite's default choice of a rowid, from the empty table. *)
Lemma keys_stay_unique_witness :
  (forall t0, find (has_id (sqlite_rowid t0)) t0 = None) /\
  unique_keys [] /\
  unique_keys (serve sqlite_rowid (fun _ => 0%Q)
                 [Create wakanda; Create wakanda; Delete 1; Create wakanda]
                 []).
Proof.
  assert (Hempty : unique_keys []) by (split; constructor).
  split; [exact sqlite_rowid_fresh|]. split; [exact Hempty|].
  apply (keys_stay_unique sqlite_rowid (fun _ => 0%Q)
           [Create wakanda; Create wakanda; Delete 1; Create wakanda] []);
    [exact sqlite_rowid_fresh|exact Hempty].
Defined.

Lemma filter_all (q : Country -> bool) (t : table) :
  (forall x, In x t -> q x = true) -> filter q t = t.
Proof.
  induction t as [|h t IH]; simpl; intros Hq; [reflexivity|].
  rewrite (Hq h (or_introl eq_refl)). f_equal. apply IH.
  intros x Hx. apply Hq. now right.
Qed.

(** X14.  In a table where no two rows share an id, a Delete answered with
    status 200 removes exactly one row. *)
Theorem delete_removes_one_row (i : Z) (t t' : table) (resp : response) :
  NoDup (rowids t) ->
  CountryResource_delete i t = (resp, t') ->
  status resp = 200 ->
  S (List.length t') = List.length t.
Proof.
  intros Hnd Hdel Hok.
  destruct (CountryResource_delete_200 _ _ _ _ Hdel Hok)
    as [_ [[r [Hf _]] ->]].
  clear Hok Hdel. revert Hnd Hf. unfold rowids.
  induction t as [|h t IH]; simpl; [discriminate|].
  intros Hnd Hf.
  destruct (has_id i h) eqn:Hh; simpl.
  - f_equal. f_equal. apply filter_all. intros x Hx.
    apply has_id_true in Hh. rewrite Hh in Hnd. simpl in Hnd.
    inversion Hnd as [|? ? Hnotin _]; subst.
    destruct (has_id i x) eqn:Hxi; [|reflexivity].
    exfalso. apply Hnotin. apply in_rowids. exists x.
    split; [assumption|now apply has_id_true].
  - f_equal. apply IH; [|assumption].
    destruct (id h); simpl in Hnd; [now inversion Hnd|assumption].
Qed.

Lemma delete_removes_one_row_witness :
  NoDup (rowids two_rows) /\
  S (List.length (snd (CountryResource_delete 2 two_rows)))
  = List.length two_rows.
Proof.
  assert (Hnd : NoDup (rowids two_rows)).
  { repeat constructor; simpl; intuition discriminate. }
  split; [exact Hnd|].
  apply (delete_removes_one_row 2 two_rows
           (snd (CountryResource_delete 2 two_rows))
           (fst (CountryResource_delete 2 two_rows)) Hnd);
    reflexivity.
Defined.

(** ** Aggregates *)

Lemma CountryAverageValue_get_column (text_as_real : string -> Q)
  (c : column) (t : table) :
  CountryAverageValue_get text_as_real (column_name c) t =
  ({| status := 200;
      payload := Average (column_name c)
                         (avg text_as_real (map (cell c) t)) |}, t).
Proof.
  unfold CountryAverageValue_get, CountryAverageValue_get_body,
    dispatch, bind, getattr.
  rewrite getattr_column. reflexivity.
Qed.

Lemma avg_none (text_as_real : string -> Q) (cells : list value) :
  avg text_as_real cells = None <->
  forall v, In v cells -> is_null v = true.
Proof.
  unfold avg. split.
  - intros Hnone v Hin.
    destruct (is_null v) eqn:Hv; [reflexivity|].
    assert (Hf : In v (filter (fun v => negb (is_null v)) cells)).
    { apply filter_In. split; [assumption|now rewrite Hv]. }
    destruct (filter _ cells); [contradiction|discriminate].
  - intros Hall.
    destruct (filter (fun v => negb (is_null v)) cells) as [|v vs] eqn:Hf;
      [reflexivity|].
    assert (Hin : In v (filter (fun v => negb (is_null v)) cells))
      by (rewrite Hf; now left).
    apply filter_In in Hin. destruct Hin as [Hin Hv].
    rewrite (Hall v Hin) in Hv. discriminate.
Qed.

(** X15.  Average on a column answers status 200 with the name of the
    column, and its [average_value] is null exactly when no row has a
    value in that column; so it is a number on every table that has a
    row with its six fields. *)
Theorem average_is_null_without_values (text_as_real : string -> Q)
  (c : column) (t : table) :
  exists average_value,
    CountryAverageValue_get text_as_real (column_name c) t
    = ({| status := 200;
          payload := Average (column_name c) average_value |}, t)
    /\ (average_value = None <->
        forall r, In r t -> is_null (cell c r) = true).
Proof.
  rewrite CountryAverageValue_get_column.
  eexists. split; [reflexivity|].
  rewrite avg_none. split.
  - intros Hall r Hr. apply Hall. now apply in_map.
  - intros Hall v Hv. apply in_map_iff in Hv.
    destruct Hv as [r [<- Hr]]. now apply Hall.
Qed.

Lemma first_is_the_strict_best (o : ordering) (t : table) (best : Country) :
  (forall x, In x t -> precedes o x best = false) ->
  hd_error (sorted_rows o (t ++ [best])) = Some best.
Proof.
  intros Hstrict.
  destruct (sorted_rows_nonempty o (t ++ [best])) as [r Hr].
  { intros Hnil. now apply app_eq_nil in Hnil. }
  destruct (first_of_sorted_rows o _ r Hr) as [Hrin Hall].
  rewrite Hr. f_equal.
  apply in_app_or in Hrin. destruct Hrin as [Hrin|[Heq|[]]]; [|now symmetry].
  assert (Hbest : In best (t ++ [best]))
    by (apply in_or_app; right; now left).
  specialize (Hall best Hbest).
  rewrite (Hstrict r Hrin) in Hall. discriminate.
Qed.

(** X16.  A country that is created, with its six fields and its integers
    within the 64 bits of SQLite, with a value that exceeds (falls below)
    the value of every stored row in a column is the one that Max (Min) on
    that column answers with next. *)
Theorem created_extreme_is_reported (next_rowid : table -> Z)
  (data : json_body) (c : column) (t : table) :
  let new := row_of (Some (next_rowid t)) data in
  let t' := snd (Countries_post next_rowid data t) in
  let answer := {| status := 200; payload := Object (marshal (Some new)) |} in
  omits data = false ->
  fits data = true ->
  in_int64 (next_rowid t) = true ->
  ((forall x, In x t -> value_leb (cell c new) (cell c x) = false) ->
   fst (CountryWithMaxValue_get (column_name c) t') = answer)
  /\
  ((forall x, In x t -> value_leb (cell c x) (cell c new) = false) ->
   fst (CountryWithMinValue_get (column_name c) t') = answer).
Proof.
  intros new t' answer Hall Hfits Hkey. subst new t' answer.
  rewrite Countries_post_result, insert_taken_complete by assumption.
  simpl snd.
  rewrite CountryWithMaxValue_get_column, CountryWithMinValue_get_column.
  split; intros Hstrict; simpl fst.
  - now rewrite (first_is_the_strict_best (DESC, c)).
  - now rewrite (first_is_the_strict_best (ASC, c)).
Qed.

(** On the second row of [two_rows] alone, the population of [wakanda]
    exceeds the stored one. *)
Lemma created_extreme_is_reported_witness :
  omits wakanda = false /\
  fits wakanda = true /\
  in_int64 (sqlite_rowid (tl two_rows)) = true /\
  fst (CountryWithMaxValue_get "population_of_the_country"
         (snd (Countries_post sqlite_rowid wakanda (tl two_rows))))
  = {| status := 200;
       payload := Object (marshal (Some (row_of (Some 3) wakanda))) |}.
Proof.
  split; [reflexivity|]. split; [reflexivity|]. split; [reflexivity|].
  apply (created_extreme_is_reported sqlite_rowid wakanda
           population_of_the_country_ (tl two_rows) eq_refl eq_refl eq_refl).
  intros x [<-|[]]. reflexivity.
Defined.

Lemma getattr_is_column (field : string) (c : column) :
  getattr_Country field = Some (InstrumentedAttribute c) ->
  field = column_name c.
Proof.
  unfold getattr_Country.
  destruct (field =? "__repr__"); [discriminate|].
  destruct (find (fun c0 => field =? column_name c0) columns) as [c0|] eqn:Hf;
    [|discriminate].
  intros [= <-]. apply find_some in Hf.
  now apply String.eqb_eq.
Qed.

(** X17.  Max and Min answer status 200 for the seven names of the columns,
    matched letter for letter, and for nothing else: with any other field
    they answer status 500, and the table is as before. *)
Theorem extremum_needs_a_column_name (field : string) (t : table) :
  (exists c, field = column_name c
             /\ status (fst (CountryWithMaxValue_get field t)) = 200
             /\ status (fst (CountryWithMinValue_get field t)) = 200)
  \/ ((forall c, field <> column_name c)
      /\ CountryWithMaxValue_get field t
         = ({| status := 500; payload := Message |}, t)
      /\ CountryWithMinValue_get field t
         = ({| status := 500; payload := Message |}, t)).
Proof.
  destruct (getattr_Country field) as [[c|]|] eqn:Hattr.
  - left. exists c. apply getattr_is_column in Hattr. subst field.
    rewrite CountryWithMaxValue_get_column, CountryWithMinValue_get_column.
    repeat split.
  - right. split.
    + intros c ->. rewrite getattr_column in Hattr. discriminate.
    + unfold CountryWithMaxValue_get, CountryWithMaxValue_get_body,
        CountryWithMinValue_get, CountryWithMinValue_get_body,
        dispatch, marshal_with, getattr, bind.
      rewrite Hattr. split; reflexivity.
  - right. split.
    + intros c ->. rewrite getattr_column in Hattr. discriminate.
    + unfold CountryWithMaxValue_get, CountryWithMaxValue_get_body,
        CountryWithMinValue_get, CountryWithMinValue_get_body,
        dispatch, marshal_with, getattr, bind.
      rewrite Hattr. split; reflexivity.
Qed.

(** ** Create, then delete *)

(** X18.  A Delete of the country that a Create has just added, from a
    body with the six fields and its integers within the 64 bits of
    SQLite, gives the table back as it was before the Create, when the
    store gave the new row a primary key that was not in use. *)
Theorem delete_undoes_create (next_rowid : table -> Z) (data : json_body)
  (t : table) :
  omits data = false ->
  fits data = true ->
  in_int64 (next_rowid t) = true ->
  find (has_id (next_rowid t)) t = None ->
  CountryResource_delete (next_rowid t)
    (snd (Countries_post next_rowid data t))
  = ({| status := 200;
        payload := Envelope "country_deleted"
                     (marshal (Some (row_of (Some (next_rowid t)) data))) |},
     t).
Proof.
  intros Hall Hfits Hkey Hfresh.
  rewrite Countries_post_result, insert_taken_complete by assumption.
  simpl snd.
  rewrite CountryResource_delete_result, Hkey.
  rewrite (find_snoc_fresh (next_rowid t) t
             (row_of (Some (next_rowid t)) data) Hfresh eq_refl).
  simpl id. cbv beta iota.
  rewrite filter_app. cbn [filter].
  rewrite (proj2 (has_id_true (next_rowid t)
                    (row_of (Some (next_rowid t)) data)) eq_refl).
  cbn [negb]. rewrite app_nil_r.
  rewrite filter_all; [reflexivity|]. intros x Hx.
  now rewrite (find_none _ _ Hfresh x Hx).
Qed.

Lemma delete_undoes_create_witness :
  omits wakanda = false /\
  fits wakanda = true /\
  in_int64 (sqlite_rowid two_rows) = true /\
  find (has_id (sqlite_rowid two_rows)) two_rows = None /\
  snd (CountryResource_delete (sqlite_rowid two_rows)
         (snd (Countries_post sqlite_rowid wakanda two_rows)))
  = two_rows.
Proof.
  split; [reflexivity|]. split; [reflexivity|]. split; [reflexivity|].
  split; [reflexivity|].
  rewrite (delete_undoes_create sqlite_rowid wakanda two_rows eq_refl
             eq_refl eq_refl (sqlite_rowid_fresh two_rows)).
  reflexivity.
Defined.
